(** * quiz_yaml_converter: bracket normaliser, criteria formatter, validation

    A shallow embedding of [quiz_yaml_converter/converter.go].

    Go strings are immutable byte sequences; they are modelled by Rocq's
    [string], whose characters are 8-bit [ascii] values.  A string literal
    such as ["「"] therefore denotes its three UTF-8 bytes E3 80 8C, exactly
    as in the Go source file.  A [map[string][]string] is a [gmap] from
    strings to lists of strings, wrapped in [option] because a Go map value
    may be [nil].  A slice of strings is a [list string]: the code only takes
    [len] of such slices and ranges over them, so a nil slice and an empty
    slice are the same value here. *)

From Stdlib Require Import String Ascii ZArith List Bool Lia DecimalString.
From stdpp Require Import gmap strings list fin_maps.

Open Scope string_scope.
Open Scope Z_scope.

(** ** The functions of Go's [strings] package used by the converter *)

(** [s[:n]], for [n <= len(s)]. *)
Fixpoint slice_to (n : nat) (s : string) : string :=
  match n, s with
  | S n', String c s' => String c (slice_to n' s')
  | _, _ => ""
  end.

(** [s[n:]], for [n <= len(s)]. *)
Fixpoint slice_from (n : nat) (s : string) : string :=
  match n, s with
  | S n', String _ s' => slice_from n' s'
  | _, _ => s
  end.

(** [strings.HasPrefix]:
    [len(s) >= len(prefix) && s[:len(prefix)] == prefix]. *)
Definition HasPrefix (s prefix : string) : bool :=
  (String.length prefix <=? String.length s)%nat
  && String.eqb (slice_to (String.length prefix) s) prefix.

(** [strings.HasSuffix]:
    [len(s) >= len(suffix) && s[len(s)-len(suffix):] == suffix]. *)
Definition HasSuffix (s suffix : string) : bool :=
  (String.length suffix <=? String.length s)%nat
  && String.eqb (slice_from (String.length s - String.length suffix) s) suffix.

(** [strings.Index]: the byte offset of the first occurrence of [substr] in
    [s], or [-1] when there is none. *)
Fixpoint Index (s substr : string) : Z :=
  if HasPrefix s substr then 0%Z
  else match s with
       | "" => (-1)%Z
       | String _ s' =>
           let i := Index s' substr in
           if (i <? 0)%Z then (-1)%Z else (i + 1)%Z
       end.

(** [strings.Contains]: [Index(s, substr) >= 0]. *)
Definition Contains (s substr : string) : bool := (0 <=? Index s substr)%Z.

(** The builtin [append(s, x)] on slices. *)
Definition go_append {A : Type} (s : list A) (x : A) : list A := (s ++ [x])%list.

(** [strings.Join]. *)
Fixpoint Join (elems : list string) (sep : string) : string :=
  match elems with
  | [] => ""
  | [e] => e
  | e :: rest => e ++ sep ++ Join rest sep
  end.

(** ** UTF-8 decoding and [strings.TrimSpace]

    The validation pass tests [strings.TrimSpace(x) == ""].  [TrimSpace] is
    modelled after Go's implementation: an ASCII fast path from both ends
    that falls back to [TrimFunc(_, unicode.IsSpace)] on the first byte
    [>= 0x80], with runes decoded as [unicode/utf8] does. *)

Definition byte_val (c : ascii) : Z := Z.of_N (N_of_ascii c).

(** [s[i]], for [i < len(s)]. *)
Definition byte_at (s : string) (i : nat) : Z :=
  match String.get i s with
  | Some c => byte_val c
  | None => 0%Z
  end.

Definition RuneError : Z := 0xFFFD.
Definition RuneSelf : Z := 0x80.
Definition UTFMax : nat := 4.

(** The table [first] of [unicode/utf8]: [0xF0] for ASCII, [0xF1] for an
    invalid first byte, otherwise the size in the low three bits and the
    index of the accept range in the high four. *)
Definition first (b : Z) : Z :=
  if (b <? 0x80)%Z then 0xF0
  else if (b <? 0xC2)%Z then 0xF1
  else if (b <? 0xE0)%Z then 0x02
  else if (b =? 0xE0)%Z then 0x13
  else if (b <? 0xED)%Z then 0x03
  else if (b =? 0xED)%Z then 0x23
  else if (b <? 0xF0)%Z then 0x03
  else if (b =? 0xF0)%Z then 0x34
  else if (b <? 0xF4)%Z then 0x04
  else if (b =? 0xF4)%Z then 0x44
  else 0xF1.

(** [acceptRanges]: the bounds of the second byte. *)
Definition acceptRanges (i : Z) : Z * Z :=
  if (i =? 0)%Z then (0x80, 0xBF)
  else if (i =? 1)%Z then (0xA0, 0xBF)
  else if (i =? 2)%Z then (0x80, 0x9F)
  else if (i =? 3)%Z then (0x90, 0xBF)
  else if (i =? 4)%Z then (0x80, 0x8F)
  else (0, 0).

(** [utf8.DecodeRuneInString]: the first rune of [s] and its width in
    bytes; [(RuneError, 0)] on the empty string and [(RuneError, 1)] on an
    invalid encoding. *)
Definition DecodeRuneInString (s : string) : Z * nat :=
  let n := String.length s in
  if (n <? 1)%nat then (RuneError, 0%nat)
  else
    let s0 := byte_at s 0 in
    let x := first s0 in
    if (0xF0 <=? x)%Z then
      ((if Z.testbit x 0 then RuneError else s0), 1%nat)
    else
      let sz := Z.to_nat (Z.land x 7) in
      let '(lo, hi) := acceptRanges (Z.shiftr x 4) in
      if (n <? sz)%nat then (RuneError, 1%nat)
      else
        let s1 := byte_at s 1 in
        if ((s1 <? lo) || (hi <? s1))%Z then (RuneError, 1%nat)
        else if (sz <=? 2)%nat then
          (Z.lor (Z.shiftl (Z.land s0 0x1F) 6) (Z.land s1 0x3F), 2%nat)
        else
          let s2 := byte_at s 2 in
          if ((s2 <? 0x80) || (0xBF <? s2))%Z then (RuneError, 1%nat)
          else if (sz <=? 3)%nat then
            (Z.lor (Z.lor (Z.shiftl (Z.land s0 0x0F) 12)
                          (Z.shiftl (Z.land s1 0x3F) 6))
                   (Z.land s2 0x3F), 3%nat)
          else
            let s3 := byte_at s 3 in
            if ((s3 <? 0x80) || (0xBF <? s3))%Z then (RuneError, 1%nat)
            else
              (Z.lor (Z.lor (Z.lor (Z.shiftl (Z.land s0 0x07) 18)
                                   (Z.shiftl (Z.land s1 0x3F) 12))
                            (Z.shiftl (Z.land s2 0x3F) 6))
                     (Z.land s3 0x3F), 4%nat).

(** [utf8.RuneStart]: the byte is not a continuation byte. *)
Definition RuneStart (b : Z) : bool := negb (Z.land b 0xC0 =? 0x80)%Z.

(** The backward scan of [DecodeLastRuneInString]:
    [for start--; start >= lim; start-- { if RuneStart(s[start]) { break } }]
    entered with [start = end - 1]; [steps] bounds the number of candidate
    positions [end - 2 .. lim].  The result is the final [start], which is
    [lim - 1] when no rune start was met ([-1] when [lim] is [0]). *)
Fixpoint scan_start (s : string) (start : Z) (steps : nat) : Z :=
  match steps with
  | O => (start - 1)%Z
  | S k =>
      let start := (start - 1)%Z in
      if RuneStart (byte_at s (Z.to_nat start)) then start
      else scan_start s start k
  end.

(** [utf8.DecodeLastRuneInString]. *)
Definition DecodeLastRuneInString (s : string) : Z * nat :=
  let end_ := String.length s in
  if (end_ =? 0)%nat then (RuneError, 0%nat)
  else
    let start := (end_ - 1)%nat in
    let r := byte_at s start in
    if (r <? RuneSelf)%Z then (r, 1%nat)
    else
      let lim := (end_ - UTFMax)%nat in
      let start := scan_start s (Z.of_nat start) (start - lim) in
      let start := if (start <? 0)%Z then 0%nat else Z.to_nat start in
      let '(r, size) := DecodeRuneInString (slice_to (end_ - start) (slice_from start s)) in
      if negb (start + size =? end_)%nat then (RuneError, 1%nat)
      else (r, size).

(** [unicode.IsSpace]: the Latin-1 cases, then the [White_Space] range
    table above Latin-1. *)
Definition IsSpace (r : Z) : bool :=
  if ((0 <=? r) && (r <=? 0xFF))%Z then
    ((r =? 0x09) || (r =? 0x0A) || (r =? 0x0B) || (r =? 0x0C) || (r =? 0x0D)
     || (r =? 0x20) || (r =? 0x85) || (r =? 0xA0))%Z
  else
    ((r =? 0x1680) || ((0x2000 <=? r) && (r <=? 0x200A))
     || ((0x2028 <=? r) && (r <=? 0x2029)) || (r =? 0x202F) || (r =? 0x205F)
     || (r =? 0x3000))%Z.

(** The table [asciiSpace] of package [strings]. *)
Definition asciiSpace (c : Z) : bool :=
  ((c =? 0x09) || (c =? 0x0A) || (c =? 0x0B) || (c =? 0x0C) || (c =? 0x0D)
   || (c =? 0x20))%Z.

(** [indexFunc(s, f, truth)]: the loop [for i, r := range s] decodes a rune
    at offset [i] and resumes after its bytes.  [skip] counts the bytes of
    the current rune still to be passed over. *)
Fixpoint indexFunc_from (f : Z -> bool) (truth : bool)
    (s : string) (skip : nat) (i : Z) : Z :=
  match s with
  | "" => (-1)%Z
  | String _ s' =>
      match skip with
      | S k => indexFunc_from f truth s' k (i + 1)
      | O =>
          let '(r, size) := DecodeRuneInString s in
          if Bool.eqb (f r) truth then i
          else indexFunc_from f truth s' (size - 1) (i + 1)
      end
  end.

Definition indexFunc (s : string) (f : Z -> bool) (truth : bool) : Z :=
  indexFunc_from f truth s 0 0.

(** [lastIndexFunc(s, f, truth)]: the loop [for i := len(s); i > 0;];
    every iteration lowers [i] by at least one, so [len(s)] iterations are
    enough. *)
Fixpoint lastIndexFunc_from (f : Z -> bool) (truth : bool)
    (s : string) (fuel : nat) (i : nat) : Z :=
  match fuel with
  | O => (-1)%Z
  | S fuel' =>
      if (0 <? i)%nat then
        let '(r, size) := DecodeLastRuneInString (slice_to i s) in
        let i := (i - size)%nat in
        if Bool.eqb (f r) truth then Z.of_nat i
        else lastIndexFunc_from f truth s fuel' i
      else (-1)%Z
  end.

Definition lastIndexFunc (s : string) (f : Z -> bool) (truth : bool) : Z :=
  lastIndexFunc_from f truth s (String.length s) (String.length s).

Definition TrimLeftFunc (s : string) (f : Z -> bool) : string :=
  let i := indexFunc s f false in
  if (i =? -1)%Z then "" else slice_from (Z.to_nat i) s.

Definition TrimRightFunc (s : string) (f : Z -> bool) : string :=
  let i := lastIndexFunc s f false in
  let i :=
    if (0 <=? i)%Z && (RuneSelf <=? byte_at s (Z.to_nat i))%Z then
      let '(_, wid) := DecodeRuneInString (slice_from (Z.to_nat i) s) in
      (i + Z.of_nat wid)%Z
    else (i + 1)%Z in
  slice_to (Z.to_nat i) s.

Definition TrimFunc (s : string) (f : Z -> bool) : string :=
  TrimRightFunc (TrimLeftFunc s f) f.

(** The second loop of [TrimSpace], on [t = s[start:]]:
    [for ; stop > start; stop-- ]. *)
Fixpoint TrimSpace_stop (t : string) (stop : nat) : string :=
  match stop with
  | O => slice_to 0 t
  | S k =>
      let c := byte_at t k in
      if (RuneSelf <=? c)%Z then TrimRightFunc (slice_to stop t) IsSpace
      else if negb (asciiSpace c) then slice_to stop t
      else TrimSpace_stop t k
  end.

(** [strings.TrimSpace]; the recursion is the first loop,
    [for ; start < len(s); start++ ]. *)
Fixpoint TrimSpace (s : string) : string :=
  match s with
  | "" => TrimSpace_stop s 0
  | String c s' =>
      if (RuneSelf <=? byte_val c)%Z then TrimFunc s IsSpace
      else if negb (asciiSpace (byte_val c)) then TrimSpace_stop s (String.length s)
      else TrimSpace s'
  end.

(** Conversion of an integer to [byte], which keeps the low eight bits. *)
Definition byte_of (z : Z) : ascii := ascii_of_N (Z.to_N (z mod 256)).

(** [utf8.EncodeRune]: the UTF-8 encoding of a rune, that of [RuneError]
    for a surrogate half and for a value out of range. *)
Definition EncodeRune (r : Z) : string :=
  if (0 <=? r) && (r <=? 0x7F) then String (byte_of r) ""
  else if (0 <=? r) && (r <=? 0x7FF) then
    String (byte_of (Z.lor 0xC0 (Z.shiftr r 6)))
      (String (byte_of (Z.lor 0x80 (Z.land r 0x3F))) "")
  else if (0 <=? r) && ((r <? 0xD800) || ((0xDFFF <? r) && (r <=? 0xFFFF))) then
    String (byte_of (Z.lor 0xE0 (Z.shiftr r 12)))
      (String (byte_of (Z.lor 0x80 (Z.land (Z.shiftr r 6) 0x3F)))
         (String (byte_of (Z.lor 0x80 (Z.land r 0x3F))) ""))
  else if (0xFFFF <? r) && (r <=? 0x10FFFF) then
    String (byte_of (Z.lor 0xF0 (Z.shiftr r 18)))
      (String (byte_of (Z.lor 0x80 (Z.land (Z.shiftr r 12) 0x3F)))
         (String (byte_of (Z.lor 0x80 (Z.land (Z.shiftr r 6) 0x3F)))
            (String (byte_of (Z.lor 0x80 (Z.land r 0x3F))) "")))
  else String (byte_of 0xEF) (String (byte_of 0xBF) (String (byte_of 0xBD) "")).

(** The conversion [string(runes)] of a slice of runes. *)
Definition string_of_runes (runes : list Z) : string :=
  fold_right (fun r s => EncodeRune r ++ s) "" runes.

(** A string that consists of white space only: it is the UTF-8 text of
    runes that all satisfy [unicode.IsSpace]. *)
Definition whitespace_only (s : string) : Prop :=
  exists runes, Forall (fun r => IsSpace r = true) runes /\ s = string_of_runes runes.

(** The white space runes, listed. *)
Definition space_runes : list Z :=
  [ 0x09; 0x0A; 0x0B; 0x0C; 0x0D; 0x20; 0x85; 0xA0; 0x1680;
    0x2000; 0x2001; 0x2002; 0x2003; 0x2004; 0x2005; 0x2006; 0x2007; 0x2008;
    0x2009; 0x200A; 0x2028; 0x2029; 0x202F; 0x205F; 0x3000 ].

(** The last byte of a string. *)
Fixpoint last_byte (s : string) : option ascii :=
  match s with
  | "" => None
  | String c "" => Some c
  | String _ s' => last_byte s'
  end.

(** What the normaliser can see of the encoding of a white space rune: it
    is not empty, it does not end with the last byte of 」, and nothing that
    starts with it starts with 「. *)
Definition plain_encoding (e : string) : Prop :=
  e <> "" /\ last_byte e <> last_byte "」"
  /\ forall tail, HasPrefix (e ++ tail) "「" = false.

(** [fmt.Sprintf("%d", n)]. *)
Definition itoa (n : Z) : string := NilZero.string_of_int (Z.to_int n).

(** ** [AddQuotesIfNeeded] (converter.go, lines 55-76) *)

Definition AddQuotesIfNeeded (item : string) : string :=
  if HasPrefix item "「" && HasSuffix item "」" then item
  else if HasPrefix item "「" then
    if Contains item "」" then item else item ++ "」"
  else if negb (HasPrefix item "「") && HasSuffix item "」" then "「" ++ item
  else "「" ++ item ++ "」".

(** The decision table of the specification (section 4.1), written from its
    four numbered cases; it is compared with the code below. *)
Definition normalize_table (text : string) : string :=
  match HasPrefix text "「", HasSuffix text "」", Contains text "」" with
  | true, true, _ => text
  | true, false, true => text
  | true, false, false => text ++ "」"
  | false, true, _ => "「" ++ text
  | false, false, _ => "「" ++ text ++ "」"
  end.

(** The same table as a relation between a text and its normal form: one
    rule for each outcome, under the tests that lead to it. *)
Inductive quote_case (item : string) : string -> Prop :=
| quote_both :
    HasPrefix item "「" = true -> HasSuffix item "」" = true ->
    quote_case item item
| quote_open_closed_inside :
    HasPrefix item "「" = true -> HasSuffix item "」" = false ->
    Contains item "」" = true ->
    quote_case item item
| quote_open_only :
    HasPrefix item "「" = true -> HasSuffix item "」" = false ->
    Contains item "」" = false ->
    quote_case item (item ++ "」")
| quote_close_only :
    HasPrefix item "「" = false -> HasSuffix item "」" = true ->
    quote_case item ("「" ++ item)
| quote_none :
    HasPrefix item "「" = false -> HasSuffix item "」" = false ->
    quote_case item ("「" ++ item ++ "」").

(** ** [formatCriteriaSection] (converter.go, lines 80-90) *)

Definition formatCriteriaSection (items : list string) (suffix : string) : string :=
  if (length items =? 0)%nat then ""
  else
    let formattedItems :=
      fold_left (fun acc item => go_append acc (AddQuotesIfNeeded item)) items [] in
    Join formattedItems "" ++ suffix.

(** ** [FormatCriteria] (converter.go, lines 95-114) *)

(** A Go [map[string][]string] value: [None] is the nil map. *)
Abbreviation GoMap := (option (gmap string (list string))).

(** The two-result index expression [v, exists := m[k]]; on a nil map and on
    a missing key it yields the zero value and [false]. *)
Definition map_index (m : GoMap) (k : string) : list string * bool :=
  match m with
  | None => ([], false)
  | Some g => match g !! k with
              | Some v => (v, true)
              | None => ([], false)
              end
  end.

Definition FormatCriteria (criteria : GoMap) : string :=
  let parts : list string := [] in
  let parts :=
    let '(ok, exists_) := map_index criteria "ok" in
    if exists_ && (0 <? length ok)%nat
    then go_append parts (formatCriteriaSection ok "") else parts in
  let parts :=
    let '(ng, exists_) := map_index criteria "ng" in
    if exists_ && (0 <? length ng)%nat
    then go_append parts (formatCriteriaSection ng "は誤答") else parts in
  let parts :=
    let '(repeat_, exists_) := map_index criteria "repeat" in
    if exists_ && (0 <? length repeat_)%nat
    then go_append parts (formatCriteriaSection repeat_ "はもう一度") else parts in
  Join parts "／".

(** ** The criteria formatter as the specification words it (section 4.2)

    These definitions follow the text of the specification; the theorems
    compare them with [formatCriteriaSection] and [FormatCriteria] above. *)

(** The strings of a list one after the other, nothing in between. *)
Definition concat_all (l : list string) : string :=
  fold_right String.append "" l.

(** The list filed under a category name; empty when the category, or the
    whole map, is absent. *)
Definition category (criteria : GoMap) (name : string) : list string :=
  match criteria with
  | Some g => default [] (g !! name)
  | None => []
  end.

Definition formatSection_spec (items : list string) (suffix : string) : string :=
  match items with
  | [] => ""
  | _ :: _ => concat_all (map AddQuotesIfNeeded items) ++ suffix
  end.

(** The three sections in the fixed order ok, ng, repeat; the empty ones are
    dropped and the others joined with the full-width slash. *)
Definition formatCriteria_spec (criteria : GoMap) : string :=
  Join
    (List.filter (fun section => negb (String.eqb section ""))
       [ formatSection_spec (category criteria "ok") "";
         formatSection_spec (category criteria "ng") "は誤答";
         formatSection_spec (category criteria "repeat") "はもう一度" ])
    "／".

(** What one category adds to [parts]: its section when the list is not
    empty, nothing otherwise. *)
Definition section_part (items : list string) (suffix : string) : list string :=
  if (0 <? length items)%nat then [formatCriteriaSection items suffix] else [].

(** The three recognised category names. *)
Definition recognized (key : string) : Prop :=
  key = "ok" \/ key = "ng" \/ key = "repeat".

#[global] Instance recognized_dec (key : string) : Decision (recognized key).
Proof. unfold recognized. apply _. Defined.

(** ** Records and validation (converter.go, lines 24-30, 155-261) *)

Record QuizItem := {
  Question : string;
  Answer : string;
  Spell : string;
  Comments : list string;
  Criteria : GoMap
}.

Record ValidationResult := {
  IsValid : bool;
  Errors : list string;
  Items : Z
}.

(** The loops [for j, x := range xs] of [validateQuizItem], which append
    [line j] for every [x] with [strings.TrimSpace(x) == ""].  The source
    writes this loop four times (ok, ng, repeat, comments) with different
    messages. *)
Fixpoint blank_entries (line : Z -> string) (xs : list string) (j : Z)
    (errors : list string) : list string :=
  match xs with
  | [] => errors
  | x :: xs' =>
      let errors :=
        if String.eqb (TrimSpace x) "" then go_append errors (line j)
        else errors in
      blank_entries line xs' (j + 1) errors
  end.

(** The map literal [validKeys] and the lookup [validKeys[key]], which is
    [false] on a missing key. *)
Definition validKeys : gmap string bool :=
  <["ok" := true]> (<["ng" := true]> (<["repeat" := true]> ∅)).

Definition validKeys_index (key : string) : bool :=
  default false (validKeys !! key).

(** [validateQuizItem].  Go leaves the order of [for key := range m]
    unspecified: [keys] is the order in which the runtime yields the keys
    of [item.Criteria] in this call (a parameter of the model; the theorems
    assume that it lists every key of the map once). *)
Definition validateQuizItem (keys : list string) (item : QuizItem) (index : Z)
    : list string :=
  let errors : list string := [] in
  let prefix := "問題 " ++ itoa index ++ ": " in
  let errors :=
    if String.eqb (TrimSpace (Question item)) ""
    then go_append errors (prefix ++ "問題文 (question) が空です") else errors in
  let errors :=
    if String.eqb (TrimSpace (Answer item)) ""
    then go_append errors (prefix ++ "答え (answer) が空です") else errors in
  let errors :=
    match Criteria item with
    | Some _ =>
        let errors :=
          let '(ok, exists_) := map_index (Criteria item) "ok" in
          if exists_ then
            blank_entries
              (fun j => prefix ++ "criteria.ok[" ++ itoa j ++ "] が空です")
              ok 0 errors
          else errors in
        let errors :=
          let '(ng, exists_) := map_index (Criteria item) "ng" in
          if exists_ then
            blank_entries
              (fun j => prefix ++ "criteria.ng[" ++ itoa j ++ "] が空です")
              ng 0 errors
          else errors in
        let errors :=
          let '(repeat_, exists_) := map_index (Criteria item) "repeat" in
          if exists_ then
            blank_entries
              (fun j => prefix ++ "criteria.repeat[" ++ itoa j ++ "] が空です")
              repeat_ 0 errors
          else errors in
        fold_left
          (fun errors key =>
             if negb (validKeys_index key) then
               go_append errors
                 (prefix ++ "不正なcriteriaキー: '" ++ key
                         ++ "' (使用可能: ok, ng, repeat)")
             else errors)
          keys errors
    | None => errors
    end in
  blank_entries (fun j => prefix ++ "comments[" ++ itoa j ++ "] が空です")
    (Comments item) 0 errors.

(** What [ValidateYAMLFile] observes of the file system and the YAML
    decoder: [os.Stat] reports that the file does not exist, or
    [LoadYAMLData] fails with an error whose text is [err], or it returns the
    decoded records. *)
Inductive LoadOutcome :=
| FileNotExist
| LoadFailed (err : string)
| Loaded (data : list QuizItem).

(** The loop [for i, item := range data] of [ValidateYAMLFile]. *)
Fixpoint validate_items (rangeKeys : Z -> gmap string (list string) -> list string)
    (data : list QuizItem) (i : Z) (result : ValidationResult) : ValidationResult :=
  match data with
  | [] => result
  | item :: rest =>
      let keys := match Criteria item with
                  | Some m => rangeKeys (i + 1)%Z m
                  | None => []
                  end in
      let itemErrors := validateQuizItem keys item (i + 1) in
      let result :=
        if (0 <? length itemErrors)%nat then
          {| IsValid := false;
             Errors := (Errors result ++ itemErrors)%list;
             Items := Items result |}
        else result in
      validate_items rangeKeys rest (i + 1) result
  end.

(** [ValidateYAMLFile]; [rangeKeys n m] is the order in which the runtime
    yields the keys of the map [m] of record number [n]. *)
Definition ValidateYAMLFile
    (rangeKeys : Z -> gmap string (list string) -> list string)
    (file : LoadOutcome) (yamlFilePath : string) : ValidationResult :=
  let result := {| IsValid := true; Errors := []; Items := 0 |} in
  match file with
  | FileNotExist =>
      {| IsValid := false;
         Errors := go_append (Errors result) ("ファイルが存在しません: " ++ yamlFilePath);
         Items := Items result |}
  | LoadFailed err =>
      {| IsValid := false;
         Errors := go_append (Errors result) ("YAMLファイルの読み込みエラー: " ++ err);
         Items := Items result |}
  | Loaded data =>
      let result := {| IsValid := IsValid result; Errors := Errors result;
                       Items := Z.of_nat (length data) |} in
      let result := validate_items rangeKeys data 0 result in
      if (length data =? 0)%nat then
        {| IsValid := false;
           Errors := go_append (Errors result)
                       "YAMLファイルにクイズデータが含まれていません";
           Items := Items result |}
      else result
  end.

(** ** The findings of the validation pass, one kind after the other *)

(** A list entry or field that the validation does not report:
    [strings.TrimSpace] leaves something of it. *)
Definition not_blank (x : string) : Prop := TrimSpace x <> "".

#[global] Instance not_blank_dec (x : string) : Decision (not_blank x).
Proof. unfold not_blank. apply _. Defined.

(** The lines reported for the blank entries of [xs], the first of which has
    index [j]. *)
Fixpoint blank_lines (line : Z -> string) (xs : list string) (j : Z) : list string :=
  match xs with
  | [] => []
  | x :: xs' =>
      ((if String.eqb (TrimSpace x) "" then [line j] else [])
       ++ blank_lines line xs' (j + 1))%list
  end.

(** Everything [validateQuizItem] has to report on a record: the blank
    required fields, the blank entries of the three categories, the
    unrecognised keys in the order [keys], the blank comments. *)
Definition item_findings (keys : list string) (item : QuizItem) (index : Z)
    : list string :=
  let prefix := "問題 " ++ itoa index ++ ": " in
  let question :=
    if String.eqb (TrimSpace (Question item)) ""
    then [prefix ++ "問題文 (question) が空です"] else [] in
  let answer :=
    if String.eqb (TrimSpace (Answer item)) ""
    then [prefix ++ "答え (answer) が空です"] else [] in
  let ok :=
    blank_lines (fun j => prefix ++ "criteria.ok[" ++ itoa j ++ "] が空です")
      (category (Criteria item) "ok") 0 in
  let ng :=
    blank_lines (fun j => prefix ++ "criteria.ng[" ++ itoa j ++ "] が空です")
      (category (Criteria item) "ng") 0 in
  let repeat_ :=
    blank_lines (fun j => prefix ++ "criteria.repeat[" ++ itoa j ++ "] が空です")
      (category (Criteria item) "repeat") 0 in
  let unrecognized :=
    map (fun key => prefix ++ "不正なcriteriaキー: '" ++ key
                           ++ "' (使用可能: ok, ng, repeat)")
      (filter (fun key => ~ recognized key) keys) in
  let comments :=
    blank_lines (fun j => prefix ++ "comments[" ++ itoa j ++ "] が空です")
      (Comments item) 0 in
  match Criteria item with
  | Some _ =>
      (question ++ answer ++ ok ++ ng ++ repeat_ ++ unrecognized ++ comments)%list
  | None => (question ++ answer ++ comments)%list
  end.

(** The order in which the runtime yields the keys of the map of a record. *)
Definition item_keys (rangeKeys : Z -> gmap string (list string) -> list string)
    (item : QuizItem) (index : Z) : list string :=
  match Criteria item with
  | Some m => rangeKeys index m
  | None => []
  end.

(** The findings on the records [data], the first of which has number
    [i + 1]. *)
Fixpoint all_findings (rangeKeys : Z -> gmap string (list string) -> list string)
    (data : list QuizItem) (i : Z) : list string :=
  match data with
  | [] => []
  | item :: rest =>
      (item_findings (item_keys rangeKeys item (i + 1)) item (i + 1)
       ++ all_findings rangeKeys rest (i + 1))%list
  end.

(** A record on which the validation has nothing to report: question and
    answer are not blank, no entry of the three categories and no comment is
    blank, and the criteria map has no key besides ok, ng and repeat. *)
Definition well_formed (item : QuizItem) : Prop :=
  not_blank (Question item) /\ not_blank (Answer item)
  /\ (forall key, recognized key -> Forall not_blank (category (Criteria item) key))
  /\ (forall g key, Criteria item = Some g -> is_Some (g !! key) -> recognized key)
  /\ Forall not_blank (Comments item).

(** ** The rows of [ConvertYAMLToCSV] (converter.go, lines 328-350)

    The records handed to [csv.Writer.Write]: the header, then one row per
    item.  Opening the files and the writer's own I/O errors are outside the
    model. *)
Definition csvRow (item : QuizItem) : list string :=
  let criteriaText := "" in
  let criteriaText :=
    match Criteria item with
    | Some _ => FormatCriteria (Criteria item)
    | None => criteriaText
    end in
  [Question item; Answer item; Spell item; criteriaText].

Definition csvRecords (data : list QuizItem) : list (list string) :=
  ["question"; "answer"; "spell"; "criteria"] :: map csvRow data.

(** ** [DetectOutputFormat] (converter.go, lines 39-45 and 119-130)

    [filepath.Ext] depends on the path separators of the operating system
    and [strings.ToLower] on Unicode's case tables.  The separators are
    modelled for both families of systems; the case mapping of the runes
    above ASCII, [unicode.ToLower], is a parameter. *)

Inductive GOOS := unix_like | windows.

(** [os.IsPathSeparator]. *)
Definition IsPathSeparator (os : GOOS) (c : Z) : bool :=
  match os with
  | unix_like => c =? 0x2F
  | windows => (c =? 0x5C) || (c =? 0x2F)
  end.

(** The loop of [filepath.Ext],
    [for i := len(path) - 1; i >= 0 && !os.IsPathSeparator(path[i]); i--],
    with [n = i + 1]. *)
Fixpoint Ext_loop (os : GOOS) (path : string) (n : nat) : string :=
  match n with
  | O => ""
  | S i =>
      if IsPathSeparator os (byte_at path i) then ""
      else if byte_at path i =? 0x2E then slice_from i path
      else Ext_loop os path i
  end.

Definition Ext (os : GOOS) (path : string) : string :=
  Ext_loop os path (String.length path).

(** The first loop of [strings.ToLower]: every byte is below [RuneSelf]. *)
Fixpoint isASCII (s : string) : bool :=
  match s with
  | "" => true
  | String c s' => (byte_val c <? RuneSelf) && isASCII s'
  end.

Definition is_upper (c : ascii) : bool := (0x41 <=? byte_val c) && (byte_val c <=? 0x5A).

Fixpoint hasUpper (s : string) : bool :=
  match s with
  | "" => false
  | String c s' => is_upper c || hasUpper s'
  end.

(** The second loop of [strings.ToLower] on an ASCII string:
    [c += 'a' - 'A'] on the bytes from ['A'] to ['Z'], the others copied. *)
Fixpoint lower_bytes (s : string) : string :=
  match s with
  | "" => ""
  | String c s' =>
      String (if is_upper c then byte_of (byte_val c + 0x20) else c) (lower_bytes s')
  end.

(** [strings.Map]: every rune of [s], an invalid byte counting as
    [RuneError], is replaced by the encoding of its image, and dropped when
    the image is negative.  [skip] is as in [indexFunc_from]. *)
Fixpoint Map_from (mapping : Z -> Z) (s : string) (skip : nat) : string :=
  match s with
  | "" => ""
  | String _ s' =>
      match skip with
      | S k => Map_from mapping s' k
      | O =>
          let '(c, size) := DecodeRuneInString s in
          let r := mapping c in
          (if 0 <=? r then EncodeRune r else "")
            ++ Map_from mapping s' (size - 1)
      end
  end.

Definition Map (mapping : Z -> Z) (s : string) : string := Map_from mapping s 0.

(** [strings.ToLower]. *)
Definition ToLower (unicode_ToLower : Z -> Z) (s : string) : string :=
  if isASCII s then
    if negb (hasUpper s) then s else lower_bytes s
  else Map unicode_ToLower s.

Record Platform := {
  goos : GOOS;
  unicode_ToLower : Z -> Z
}.

(** [type OutputFormat string] and its two constants. *)
Definition OutputFormat : Type := string.
Definition FormatCSV : OutputFormat := "csv".
Definition FormatTemplate : OutputFormat := "template".

Definition DetectOutputFormat (pf : Platform) (outputFile templateFile : string)
    : OutputFormat :=
  if negb (String.eqb templateFile "") then FormatTemplate
  else
    let ext := ToLower (unicode_ToLower pf) (Ext (goos pf) outputFile) in
    if String.eqb ext ".csv" then FormatCSV
    else FormatTemplate.

(** The byte [b] occurs in [s]. *)
Fixpoint has_byte (b : Z) (s : string) : bool :=
  match s with
  | "" => false
  | String c s' => (byte_val c =? b) || has_byte b s'
  end.

(** A path separator of the system occurs in [s]. *)
Fixpoint has_separator (os : GOOS) (s : string) : bool :=
  match s with
  | "" => false
  | String c s' => IsPathSeparator os (byte_val c) || has_separator os s'
  end.

(** ** Loading and converting (converter.go, lines 133-152 and 264-376)

    The file system, the YAML decoder, the template engine and the CSV
    writer are collaborators: [Env] gives the outcome of each of their
    operations, an error being the text of its [Error()].  What a function
    does to the outside is the list of its [Event]s, in order. *)

Inductive result (A : Type) :=
| ok (a : A)
| fail (err : string).
Arguments ok {A} a.
Arguments fail {A} err.

Record Env := {
  (** [os.Stat] reports that the path does not exist *)
  os_Stat_notexist : string -> bool;
  (** [os.Open]: [None] when it succeeds *)
  os_Open : string -> option string;
  (** [io.ReadAll] on the file opened at the path *)
  io_ReadAll : string -> result string;
  (** [yaml.Unmarshal] into [[]QuizItem] *)
  yaml_Unmarshal : string -> result (list QuizItem);
  (** [os.ReadFile] *)
  os_ReadFile : string -> result string;
  (** [template.New("quiz").Funcs(...).Parse]: [None] when it succeeds *)
  template_Parse : string -> option string;
  (** [tmpl.Execute]: the text written and the error, if any *)
  template_Execute : string -> list QuizItem -> string * option string;
  (** [os.Create]: [None] when it succeeds *)
  os_Create : string -> option string;
  (** the [n]-th call of [writer.Write], with its record: [None] when it
      succeeds *)
  csv_Write : nat -> list string -> option string
}.

Inductive Event :=
| Created (path : string)
| WroteRecord (path : string) (record : list string)
| WroteText (path : string) (text : string)
| Stdout (text : string)
| Stderr (text : string)
| Usage
| Exit (code : Z).

(** [LoadYAMLData]. *)
Definition LoadYAMLData (env : Env) (yamlFilePath : string) : result (list QuizItem) :=
  match os_Open env yamlFilePath with
  | Some err => fail ("failed to open YAML file: " ++ err)
  | None =>
      match io_ReadAll env yamlFilePath with
      | fail err => fail ("failed to read YAML file: " ++ err)
      | ok yamlData =>
          match yaml_Unmarshal env yamlData with
          | fail err => fail ("failed to parse YAML: " ++ err)
          | ok data => ok data
          end
      end
  end.

(** The first steps of [ValidateYAMLFile], which decide the [LoadOutcome]
    that the model of the validation starts from. *)
Definition stat_and_load (env : Env) (yamlFilePath : string) : LoadOutcome :=
  if os_Stat_notexist env yamlFilePath then FileNotExist
  else match LoadYAMLData env yamlFilePath with
       | fail err => LoadFailed err
       | ok data => Loaded data
       end.

(** [ConvertToTemplate]. *)
Definition ConvertToTemplate (env : Env) (data : list QuizItem)
    (templateFilePath outputFilePath : string) : list Event * option string :=
  match os_ReadFile env templateFilePath with
  | fail err => ([], Some ("failed to read template file: " ++ err))
  | ok templateContent =>
      match template_Parse env templateContent with
      | Some err => ([], Some ("failed to parse template: " ++ err))
      | None =>
          match os_Create env outputFilePath with
          | Some err => ([], Some ("failed to create output file: " ++ err))
          | None =>
              let '(text, err) := template_Execute env templateContent data in
              let events := [Created outputFilePath; WroteText outputFilePath text] in
              match err with
              | Some err => (events, Some ("failed to execute template: " ++ err))
              | None => (events, None)
              end
          end
      end
  end.

(** The loop [for _, item := range data] of [ConvertYAMLToCSV]; [n] counts
    the calls of [writer.Write]. *)
Fixpoint write_rows (env : Env) (csvFilePath : string) (data : list QuizItem)
    (n : nat) (events : list Event) : list Event * option string :=
  match data with
  | [] => (events, None)
  | item :: rest =>
      let row := csvRow item in
      match csv_Write env n row with
      | Some err => (events, Some ("failed to write CSV row: " ++ err))
      | None =>
          write_rows env csvFilePath rest (S n)
            (go_append events (WroteRecord csvFilePath row))
      end
  end.

(** [ConvertYAMLToCSV]. *)
Definition ConvertYAMLToCSV (env : Env) (yamlFilePath csvFilePath : string)
    : list Event * option string :=
  match LoadYAMLData env yamlFilePath with
  | fail err => ([], Some err)
  | ok data =>
      match os_Create env csvFilePath with
      | Some err => ([], Some ("failed to create CSV file: " ++ err))
      | None =>
          let events := [Created csvFilePath] in
          let header := ["question"; "answer"; "spell"; "criteria"] in
          match csv_Write env 0 header with
          | Some err => (events, Some ("failed to write CSV header: " ++ err))
          | None =>
              write_rows env csvFilePath data 1
                (go_append events (WroteRecord csvFilePath header))
          end
      end
  end.

(** [Convert]. *)
Definition Convert (env : Env) (pf : Platform)
    (yamlFilePath outputFilePath templateFilePath : string)
    : list Event * option string :=
  let format := DetectOutputFormat pf outputFilePath templateFilePath in
  if String.eqb format FormatCSV then
    ConvertYAMLToCSV env yamlFilePath outputFilePath
  else if String.eqb format FormatTemplate then
    if String.eqb templateFilePath "" then
      ([], Some "template file is required for non-CSV output")
    else
      match LoadYAMLData env yamlFilePath with
      | fail err => ([], Some err)
      | ok data => ConvertToTemplate env data templateFilePath outputFilePath
      end
  else ([], Some "unsupported output format").

(** The paths that an event creates or writes. *)
Definition event_path (e : Event) : option string :=
  match e with
  | Created path | WroteRecord path _ | WroteText path _ => Some path
  | _ => None
  end.

(** ** The command line tool (main.go)

    [main] after [flag.Parse]: the values of the flags are its input, the
    events its output.  A run that ends in [os.Exit(1)] ends with the event
    [Exit 1]; a run that returns from [main] has no such event.  The text
    that [flag.Usage] prints is not modelled, only that it is printed. *)

Record Flags := {
  flag_input : string;
  flag_output : string;
  flag_format : string;
  flag_template : string;
  flag_validate : bool;
  flag_help : bool
}.

(** The line feed of the format strings. *)
Definition nl : string := String "010" "".

(** What [main] does with the result of [Convert]; the source writes these
    lines once for each of its four calls, with different success lines. *)
Definition report (r : list Event * option string) (success : string) : list Event :=
  match snd r with
  | Some err => (fst r ++ [Stderr ("❌ エラー: " ++ err ++ nl); Exit 1])%list
  | None => (fst r ++ [Stdout success])%list
  end.

Definition main (env : Env) (pf : Platform)
    (rangeKeys : Z -> gmap string (list string) -> list string)
    (f : Flags) : list Event :=
  if flag_help f then [Usage]
  else if String.eqb (flag_input f) "" then
    [Stderr ("❌ エラー: 入力ファイルが指定されていません" ++ nl ++ nl); Usage; Exit 1]
  else if flag_validate f then
    let start :=
      Stdout ("🔍 YAMLファイルをバリデーションしています: " ++ flag_input f ++ nl) in
    let result :=
      ValidateYAMLFile rangeKeys (stat_and_load env (flag_input f)) (flag_input f) in
    if IsValid result then
      [start;
       Stdout ("✅ バリデーション成功: " ++ itoa (Items result)
                 ++ "問のクイズデータが正しく読み込めました" ++ nl)]
    else
      (start
       :: Stdout ("❌ バリデーション失敗: " ++ itoa (Z.of_nat (length (Errors result)))
                    ++ "個のエラーが見つかりました" ++ nl)
       :: map (fun err => Stderr ("  • " ++ err ++ nl)) (Errors result)
       ++ [Exit 1])%list
  else if String.eqb (flag_output f) "" then
    [Stderr ("❌ エラー: 出力ファイルが指定されていません" ++ nl ++ nl); Usage; Exit 1]
  else if negb (String.eqb (flag_template f) "") then
    report (Convert env pf (flag_input f) (flag_output f) (flag_template f))
      ("✅ テンプレート変換完了: " ++ flag_input f ++ " + " ++ flag_template f
         ++ " → " ++ flag_output f ++ nl)
  else if String.eqb (flag_format f) "csv" then
    report (Convert env pf (flag_input f) (flag_output f) "")
      ("✅ CSV変換完了: " ++ flag_input f ++ " → " ++ flag_output f ++ nl)
  else if String.eqb (flag_format f) "html" then
    report (Convert env pf (flag_input f) (flag_output f) "templates/quiz_template.html")
      ("✅ HTML変換完了: " ++ flag_input f ++ " → " ++ flag_output f ++ nl)
  else if String.eqb (flag_format f) "markdown" || String.eqb (flag_format f) "md" then
    report (Convert env pf (flag_input f) (flag_output f) "templates/quiz_template.md")
      ("✅ Markdown変換完了: " ++ flag_input f ++ " → " ++ flag_output f ++ nl)
  else
    [Stderr ("❌ エラー: サポートされていないフォーマットです: " ++ flag_format f ++ nl);
     Stderr ("サポートされているフォーマット: csv, html, markdown" ++ nl ++ nl);
     Usage; Exit 1].

(** ** Unit tests of the repository, replayed *)

Example test_no_quotes : AddQuotesIfNeeded "test" = "「test」".
Proof. reflexivity. Qed.
Example test_both_quotes : AddQuotesIfNeeded "「test」" = "「test」".
Proof. reflexivity. Qed.
Example test_opening_only : AddQuotesIfNeeded "「test" = "「test」".
Proof. reflexivity. Qed.
Example test_closing_only : AddQuotesIfNeeded "test」" = "「test」".
Proof. reflexivity. Qed.
Example test_parentheses :
  AddQuotesIfNeeded "「美術館」（おまけ）" = "「美術館」（おまけ）".
Proof. reflexivity. Qed.
Example test_closing_inside :
  AddQuotesIfNeeded "「test」something" = "「test」something".
Proof. reflexivity. Qed.
Example test_section_already_quoted :
  formatCriteriaSection ["「ok1」"; "ok2"] "" = "「ok1」「ok2」".
Proof. reflexivity. Qed.
Example test_criteria_ok_ng :
  FormatCriteria (Some (<["ok" := ["ok1"; "ok2"]]> (<["ng" := ["ng1"]]> ∅)))
  = "「ok1」「ok2」／「ng1」は誤答".
Proof. vm_compute. reflexivity. Qed.
Example test_multiple_quiz_items :
  csvRecords
    [ {| Question := "問題1"; Answer := "答え1"; Spell := "";
         Comments := []; Criteria := None |};
      {| Question := "問題2"; Answer := "答え2"; Spell := "";
         Comments := []; Criteria := Some {["ng" := ["ng1"]]} |} ]
  = [ ["question"; "answer"; "spell"; "criteria"];
      ["問題1"; "答え1"; ""; ""];
      ["問題2"; "答え2"; ""; "「ng1」は誤答"] ].
Proof. vm_compute. reflexivity. Qed.

Example TrimSpace_examples :
  TrimSpace "" = "" /\ TrimSpace "  a b  " = "a b" /\ TrimSpace "　" = ""
  /\ TrimSpace " 　答え　 " = "答え" /\ TrimSpace "「」" = "「」"
  /\ itoa 12 = "12" /\ itoa 0 = "0".
Proof. vm_compute. repeat split. Qed.

(** ** Strings: slicing, prefixes, suffixes and occurrences *)

Lemma string_app_cons (c : ascii) (s t : string) :
  String c s ++ t = String c (s ++ t).
Proof. reflexivity. Qed.

Lemma string_app_nil_r (s : string) : s ++ "" = s.
Proof. induction s as [|c s IH]; [reflexivity|]. rewrite string_app_cons, IH. reflexivity. Qed.

Lemma string_app_assoc (a b c : string) : (a ++ b) ++ c = a ++ b ++ c.
Proof.
  induction a as [|x a IH]; [reflexivity|].
  rewrite !string_app_cons, IH. reflexivity.
Qed.

Lemma string_length_app (a b : string) :
  String.length (a ++ b) = (String.length a + String.length b)%nat.
Proof.
  induction a as [|x a IH]; [reflexivity|].
  rewrite string_app_cons. cbn [String.length]. rewrite IH. reflexivity.
Qed.

Lemma slice_to_app (a b : string) : slice_to (String.length a) (a ++ b) = a.
Proof.
  induction a as [|x a IH]; [destruct b; reflexivity|].
  rewrite string_app_cons. cbn [String.length slice_to]. rewrite IH. reflexivity.
Qed.

Lemma slice_from_app (a b : string) : slice_from (String.length a) (a ++ b) = b.
Proof.
  induction a as [|x a IH]; [destruct b; reflexivity|].
  rewrite string_app_cons. cbn [String.length slice_from]. exact IH.
Qed.

Lemma slice_to_from (n : nat) (s : string) : slice_to n s ++ slice_from n s = s.
Proof.
  revert s. induction n as [|n IH]; intros [|c s]; try reflexivity.
  cbn [slice_to slice_from]. rewrite string_app_cons, IH. reflexivity.
Qed.

Lemma slice_to_length (n : nat) (s : string) :
  (n <= String.length s)%nat -> String.length (slice_to n s) = n.
Proof.
  revert s. induction n as [|n IH]; intros [|c s] H; cbn in *; try lia.
  rewrite IH; lia.
Qed.

Lemma slice_from_length (n : nat) (s : string) :
  String.length (slice_from n s) = (String.length s - n)%nat.
Proof.
  revert s. induction n as [|n IH]; intros [|c s]; cbn; try lia. apply IH.
Qed.

(** [HasPrefix s p] holds exactly when [s] is [p] followed by something. *)
Lemma HasPrefix_spec (s p : string) :
  HasPrefix s p = true <-> exists r, s = p ++ r.
Proof.
  unfold HasPrefix. rewrite andb_true_iff, Nat.leb_le, String.eqb_eq. split.
  - intros [_ H]. exists (slice_from (String.length p) s).
    rewrite <- H at 1. symmetry. apply slice_to_from.
  - intros [r ->]. rewrite string_length_app, slice_to_app. split; [lia|reflexivity].
Qed.

(** [HasSuffix s q] holds exactly when [s] is something followed by [q]. *)
Lemma HasSuffix_spec (s q : string) :
  HasSuffix s q = true <-> exists r, s = r ++ q.
Proof.
  unfold HasSuffix. rewrite andb_true_iff, Nat.leb_le, String.eqb_eq. split.
  - intros [_ H]. exists (slice_to (String.length s - String.length q) s).
    set (n := (String.length s - String.length q)%nat) in *.
    transitivity (slice_to n s ++ slice_from n s);
      [symmetry; apply slice_to_from | rewrite H; reflexivity].
  - intros [r ->]. rewrite string_length_app. split; [lia|].
    replace (String.length r + String.length q - String.length q)%nat
      with (String.length r) by lia.
    apply slice_from_app.
Qed.

Lemma Index_lower_bound (s q : string) : -1 <= Index s q.
Proof.
  induction s as [|c s IH]; cbn [Index].
  - destruct (HasPrefix "" q); lia.
  - destruct (HasPrefix (String c s) q); [lia|].
    destruct (Index s q <? 0) eqn:E; [lia|]. apply Z.ltb_ge in E. lia.
Qed.

(** [Contains s q] holds exactly when [q] occurs somewhere in [s]. *)
Lemma Contains_spec (s q : string) :
  Contains s q = true <-> exists a b, s = a ++ q ++ b.
Proof.
  unfold Contains. rewrite Z.leb_le. split.
  - induction s as [|c s IH]; cbn [Index].
    + destruct (HasPrefix "" q) eqn:E; [|lia].
      intros _. apply HasPrefix_spec in E as [r E]. exists "", r. exact E.
    + destruct (HasPrefix (String c s) q) eqn:E.
      * intros _. apply HasPrefix_spec in E as [r E]. exists "", r. exact E.
      * destruct (Index s q <? 0) eqn:E'; [lia|]. intros _.
        apply Z.ltb_ge in E'. destruct (IH E') as (a & b & ->).
        exists (String c a), b. reflexivity.
  - intros (a & b & ->). induction a as [|c a IH].
    + replace ("" ++ q ++ b) with (q ++ b) by reflexivity.
      assert (H : HasPrefix (q ++ b) q = true) by (apply HasPrefix_spec; eauto).
      destruct (q ++ b); cbn [Index]; rewrite H; lia.
    + rewrite string_app_cons. cbn [Index].
      destruct (HasPrefix _ q); [lia|].
      destruct (Index (a ++ q ++ b) q <? 0) eqn:E; [apply Z.ltb_lt in E; lia|].
      lia.
Qed.

Lemma HasSuffix_Contains (s q : string) :
  HasSuffix s q = true -> Contains s q = true.
Proof.
  intros [r ->]%HasSuffix_spec. apply Contains_spec.
  exists r, "". rewrite string_app_nil_r. reflexivity.
Qed.

Lemma HasPrefix_app_r (s p t : string) :
  HasPrefix s p = true -> HasPrefix (s ++ t) p = true.
Proof.
  intros [r ->]%HasPrefix_spec. apply HasPrefix_spec.
  exists (r ++ t). apply string_app_assoc.
Qed.

Lemma HasSuffix_app_l (s q t : string) :
  HasSuffix s q = true -> HasSuffix (t ++ s) q = true.
Proof.
  intros [r ->]%HasSuffix_spec. apply HasSuffix_spec.
  exists (t ++ r). symmetry. apply string_app_assoc.
Qed.

Lemma HasPrefix_app (p s : string) : HasPrefix (p ++ s) p = true.
Proof. apply HasPrefix_spec. eauto. Qed.

Lemma HasSuffix_app (s q : string) : HasSuffix (s ++ q) q = true.
Proof. apply HasSuffix_spec. eauto. Qed.

(** ** The bracket normaliser *)

Lemma AddQuotesIfNeeded_case (item : string) :
  quote_case item (AddQuotesIfNeeded item).
Proof.
  unfold AddQuotesIfNeeded.
  destruct (HasPrefix item "「") eqn:P, (HasSuffix item "」") eqn:S_;
    cbn [andb negb].
  - now apply quote_both.
  - destruct (Contains item "」") eqn:C_.
    + now apply quote_open_closed_inside.
    + now apply quote_open_only.
  - now apply quote_close_only.
  - now apply quote_none.
Qed.

Lemma Contains_app_r (s q : string) : Contains (s ++ q) q = true.
Proof. apply HasSuffix_Contains, HasSuffix_app. Qed.

(** Every result starts with the open bracket and holds a close bracket. *)
Lemma AddQuotesIfNeeded_bracketed (item : string) :
  HasPrefix (AddQuotesIfNeeded item) "「" = true
  /\ Contains (AddQuotesIfNeeded item) "」" = true.
Proof.
  destruct (AddQuotesIfNeeded_case item) as [P S_|P S_ C_|P S_ C_|P S_|P S_].
  - auto using HasSuffix_Contains.
  - auto.
  - split; [apply HasPrefix_app_r, P | apply Contains_app_r].
  - split; [apply HasPrefix_app | apply HasSuffix_Contains, HasSuffix_app_l, S_].
  - split; [apply HasPrefix_app|].
    rewrite <- string_app_assoc. apply Contains_app_r.
Qed.

(** A string that starts with the open bracket and holds a close bracket is
    returned as it is. *)
Lemma AddQuotesIfNeeded_fixed (item : string) :
  HasPrefix item "「" = true -> Contains item "」" = true ->
  AddQuotesIfNeeded item = item.
Proof.
  intros P C_. unfold AddQuotesIfNeeded. rewrite P, C_.
  destruct (HasSuffix item "」"); reflexivity.
Qed.

Lemma AddQuotesIfNeeded_normalize_table (text : string) :
  AddQuotesIfNeeded text = normalize_table text.
Proof.
  unfold normalize_table.
  destruct (AddQuotesIfNeeded_case text) as [P S_|P S_ C_|P S_ C_|P S_|P S_];
    rewrite P, S_; try rewrite C_; reflexivity.
Qed.

(** C1. [AddQuotesIfNeeded] is the four-case decision table of the
    specification, in its priority order: a text that starts with 「 and
    ends with 」 is returned unchanged; otherwise a text that starts with 「
    is returned unchanged when it contains 」 and gets one 」 appended when
    it does not; otherwise a text that ends with 」 gets one 「 prepended;
    otherwise 「 is prepended and 」 is appended. *)
Theorem AddQuotesIfNeeded_decision_table (text : string) :
  AddQuotesIfNeeded text = normalize_table text
  /\ quote_case text (AddQuotesIfNeeded text).
Proof.
  split; [apply AddQuotesIfNeeded_normalize_table | apply AddQuotesIfNeeded_case].
Qed.

(** C3. The normaliser is idempotent. *)
Theorem AddQuotesIfNeeded_idempotent (s : string) :
  AddQuotesIfNeeded (AddQuotesIfNeeded s) = AddQuotesIfNeeded s.
Proof.
  destruct (AddQuotesIfNeeded_bracketed s) as [P C_].
  apply AddQuotesIfNeeded_fixed; assumption.
Qed.

(** C9. Every result of the normaliser starts with 「 and contains 」, and it
    is the input with at most one 「 put in front and at most one 」 put
    behind, so the input occurs in it as a contiguous substring. *)
Theorem AddQuotesIfNeeded_output_invariant (s : string) :
  HasPrefix (AddQuotesIfNeeded s) "「" = true
  /\ Contains (AddQuotesIfNeeded s) "」" = true
  /\ Contains (AddQuotesIfNeeded s) s = true
  /\ exists front back,
       (front = "" \/ front = "「") /\ (back = "" \/ back = "」")
       /\ AddQuotesIfNeeded s = front ++ s ++ back.
Proof.
  destruct (AddQuotesIfNeeded_bracketed s) as [P C_].
  assert (H : exists front back,
             (front = "" \/ front = "「") /\ (back = "" \/ back = "」")
             /\ AddQuotesIfNeeded s = front ++ s ++ back).
  { destruct (AddQuotesIfNeeded_case s).
    - exists "", "". rewrite string_app_nil_r. auto.
    - exists "", "". rewrite string_app_nil_r. auto.
    - exists "", "」". auto.
    - exists "「", "". rewrite string_app_nil_r. auto.
    - exists "「", "」". auto. }
  repeat split; try assumption.
  destruct H as (front & back & _ & _ & ->).
  apply Contains_spec. eauto.
Qed.

(** ** The criteria formatter *)

Lemma fold_go_append {A B : Type} (f : A -> B) (l : list A) (acc : list B) :
  fold_left (fun acc x => go_append acc (f x)) l acc = (acc ++ map f l)%list.
Proof.
  revert acc. induction l as [|x l IH]; intros acc; cbn [fold_left map].
  - symmetry. apply app_nil_r.
  - rewrite IH. unfold go_append. rewrite <- app_assoc. reflexivity.
Qed.

Lemma Join_cons_cons (e e' : string) (l : list string) (sep : string) :
  Join (e :: e' :: l) sep = e ++ sep ++ Join (e' :: l) sep.
Proof. reflexivity. Qed.

Lemma Join_empty_sep (l : list string) : Join l "" = concat_all l.
Proof.
  induction l as [|e [|e' l] IH].
  - reflexivity.
  - symmetry. apply string_app_nil_r.
  - rewrite Join_cons_cons, IH. reflexivity.
Qed.

Lemma formatCriteriaSection_spec (items : list string) (suffix : string) :
  formatCriteriaSection items suffix = formatSection_spec items suffix.
Proof.
  unfold formatCriteriaSection, formatSection_spec.
  destruct items as [|x items]; [reflexivity|].
  cbn [length Nat.eqb]. rewrite fold_go_append, Join_empty_sep. reflexivity.
Qed.

(** A section is the empty string only for an empty list. *)
Lemma formatCriteriaSection_cons (x : string) (items : list string) (suffix : string) :
  exists c t, formatCriteriaSection (x :: items) suffix = String c t.
Proof.
  rewrite formatCriteriaSection_spec. cbn [formatSection_spec map concat_all fold_right].
  destruct (AddQuotesIfNeeded_bracketed x) as [[r ->]%HasPrefix_spec _].
  eexists _, _. reflexivity.
Qed.

(** C4. [formatCriteriaSection] returns the empty string for an empty list;
    for any other list it returns the normalised elements, in their order
    and with nothing between them, followed by the suffix. *)
Theorem formatCriteriaSection_correct (items : list string) (suffix : string) :
  formatCriteriaSection [] suffix = ""
  /\ formatCriteriaSection items suffix
     = match items with
       | [] => ""
       | _ :: _ => concat_all (map AddQuotesIfNeeded items) ++ suffix
       end
  /\ formatCriteriaSection ["a"; "b"] "Y" = "「a」「b」Y"
  /\ formatCriteriaSection ["a"] "" = "「a」".
Proof.
  split; [reflexivity|]. split; [apply formatCriteriaSection_spec|].
  split; reflexivity.
Qed.

Lemma map_index_category (criteria : GoMap) (name suffix : string) (parts : list string) :
  (let '(items, exists_) := map_index criteria name in
   if exists_ && (0 <? length items)%nat
   then go_append parts (formatCriteriaSection items suffix) else parts)
  = (parts ++ section_part (category criteria name) suffix)%list.
Proof.
  unfold map_index, category, section_part, go_append.
  destruct criteria as [g|]; cbn; [|now rewrite app_nil_r].
  destruct (g !! name) as [[|x items]|]; cbn; now rewrite ?app_nil_r.
Qed.

(** [FormatCriteria] joins what the three categories add, in the order ok,
    ng, repeat. *)
Lemma FormatCriteria_parts (criteria : GoMap) :
  FormatCriteria criteria
  = Join (section_part (category criteria "ok") ""
          ++ section_part (category criteria "ng") "は誤答"
          ++ section_part (category criteria "repeat") "はもう一度")%list
      "／".
Proof.
  unfold FormatCriteria. rewrite !map_index_category.
  rewrite app_nil_l, <- app_assoc. reflexivity.
Qed.

Lemma filter_section (items : list string) (suffix : string) (rest : list string) :
  List.filter (fun section => negb (String.eqb section ""))
    (formatSection_spec items suffix :: rest)
  = (section_part items suffix
     ++ List.filter (fun section => negb (String.eqb section "")) rest)%list.
Proof.
  rewrite <- formatCriteriaSection_spec.
  unfold section_part. destruct items as [|x items].
  - reflexivity.
  - destruct (formatCriteriaSection_cons x items suffix) as (c & t & E).
    cbn [List.filter length Nat.ltb Nat.leb]. rewrite E. reflexivity.
Qed.

Lemma FormatCriteria_spec (criteria : GoMap) :
  FormatCriteria criteria = formatCriteria_spec criteria.
Proof.
  rewrite FormatCriteria_parts. unfold formatCriteria_spec.
  rewrite !filter_section. cbn [List.filter]. rewrite app_nil_r. reflexivity.
Qed.

(** The result depends on the map only through the lists filed under the
    three recognised names. *)
Lemma FormatCriteria_ext (criteria criteria' : GoMap) :
  (forall key, recognized key -> category criteria key = category criteria' key) ->
  FormatCriteria criteria = FormatCriteria criteria'.
Proof.
  intros H. rewrite !FormatCriteria_parts.
  rewrite !H by (unfold recognized; auto). reflexivity.
Qed.

(** C2. [FormatCriteria] evaluates the categories in the fixed order ok
    (no suffix), ng (suffix は誤答), repeat (suffix はもう一度), leaves out
    every category that is absent or empty, and joins the remaining sections
    with ／.  It never ranges over the map, it only looks the three names
    up, and the order in which the entries were put into the map has no
    influence.  The example of the specification evaluates as stated. *)
Theorem FormatCriteria_fixed_order :
  (forall criteria : GoMap, FormatCriteria criteria = formatCriteria_spec criteria)
  /\ (forall entries entries' : list (string * list string),
        NoDup entries.*1 -> entries ≡ₚ entries' ->
        FormatCriteria (Some (list_to_map entries))
        = FormatCriteria (Some (list_to_map entries')))
  /\ FormatCriteria
       (Some (<["ok" := ["ok1"; "ok2"]]>
                (<["ng" := ["ng1"]]> (<["repeat" := ["rep1"]]> ∅))))
     = "「ok1」「ok2」／「ng1」は誤答／「rep1」はもう一度".
Proof.
  split; [exact FormatCriteria_spec|]. split.
  - intros entries entries' Hnd Hperm.
    rewrite (list_to_map_proper entries entries' Hnd Hperm). reflexivity.
  - vm_compute. reflexivity.
Qed.

Lemma FormatCriteria_fixed_order_witness :
  FormatCriteria (Some (list_to_map [("repeat", ["rep1"]); ("ng", ["ng1"]); ("ok", ["ok1"])]))
  = FormatCriteria (Some (list_to_map [("ok", ["ok1"]); ("ng", ["ng1"]); ("repeat", ["rep1"])])).
Proof.
  apply (proj1 (proj2 FormatCriteria_fixed_order)).
  - apply (bool_decide_unpack _). vm_compute. exact I.
  - apply Permutation_rev.
Defined.

(** C5. [FormatCriteria] has no error outcome.  Keys other than ok, ng and
    repeat add nothing: dropping them all from the map leaves the result as
    it was.  When each of the three categories is absent or empty the result
    is the empty string, and so it is for the empty map. *)
Theorem FormatCriteria_ignores_unrecognized :
  (forall g : gmap string (list string),
     FormatCriteria (Some (filter (fun entry => recognized entry.1) g))
     = FormatCriteria (Some g))
  /\ (forall criteria : GoMap,
        category criteria "ok" = [] -> category criteria "ng" = [] ->
        category criteria "repeat" = [] ->
        FormatCriteria criteria = "")
  /\ FormatCriteria (Some ∅) = "".
Proof.
  split; [|split].
  - intros g. apply FormatCriteria_ext. intros key Hkey. cbn [category].
    f_equal. apply option_eq. intros items.
    rewrite map_lookup_filter_Some. cbn. tauto.
  - intros criteria Hok Hng Hrep.
    rewrite FormatCriteria_parts, Hok, Hng, Hrep. reflexivity.
  - reflexivity.
Qed.

Lemma FormatCriteria_ignores_unrecognized_witness :
  FormatCriteria (Some (<["okay" := ["x"]]> (<["ng" := []]> ∅))) = "".
Proof.
  apply (proj1 (proj2 FormatCriteria_ignores_unrecognized)); reflexivity.
Defined.

(** C10. On the nil map [FormatCriteria] returns the empty string, as it does
    on the empty map; the row written by [ConvertYAMLToCSV] is therefore the
    one it would write without its nil guard. *)
Theorem FormatCriteria_nil :
  FormatCriteria None = ""
  /\ FormatCriteria None = FormatCriteria (Some ∅)
  /\ forall item : QuizItem,
       csvRow item
       = [Question item; Answer item; Spell item; FormatCriteria (Criteria item)].
Proof.
  split; [reflexivity|]. split; [reflexivity|].
  intros item. unfold csvRow. destruct (Criteria item); reflexivity.
Qed.

(** ** The validation pass *)

Lemma blank_entries_lines (line : Z -> string) (xs : list string) (j : Z)
    (errors : list string) :
  blank_entries line xs j errors = (errors ++ blank_lines line xs j)%list.
Proof.
  revert j errors. induction xs as [|x xs IH]; intros j errors;
    cbn [blank_entries blank_lines].
  - symmetry. apply app_nil_r.
  - rewrite IH. unfold go_append.
    destruct (String.eqb (TrimSpace x) ""); [|reflexivity].
    rewrite <- app_assoc. reflexivity.
Qed.

Lemma blank_lines_none (line : Z -> string) (xs : list string) (j : Z) :
  Forall not_blank xs -> blank_lines line xs j = [].
Proof.
  intros H. revert j. induction H as [|x xs Hx _ IH]; intros j; [reflexivity|].
  cbn [blank_lines]. apply String.eqb_neq in Hx. rewrite Hx, IH. reflexivity.
Qed.

Lemma validKeys_index_recognized (key : string) :
  validKeys_index key = bool_decide (recognized key).
Proof.
  unfold validKeys_index, validKeys, recognized.
  destruct (decide (key = "ok")) as [->|Hok]; [reflexivity|].
  rewrite lookup_insert_ne by congruence.
  destruct (decide (key = "ng")) as [->|Hng]; [reflexivity|].
  rewrite lookup_insert_ne by congruence.
  destruct (decide (key = "repeat")) as [->|Hrep]; [reflexivity|].
  rewrite lookup_insert_ne by congruence. rewrite lookup_empty. cbn.
  symmetry. apply bool_decide_eq_false. tauto.
Qed.

Lemma fold_unrecognized (line : string -> string) (keys errors : list string) :
  fold_left
    (fun errors key =>
       if negb (validKeys_index key) then go_append errors (line key) else errors)
    keys errors
  = (errors ++ map line (filter (fun key => ~ recognized key) keys))%list.
Proof.
  revert errors. induction keys as [|key keys IH]; intros errors; cbn [fold_left].
  - symmetry. apply app_nil_r.
  - rewrite IH, validKeys_index_recognized, filter_cons. unfold go_append.
    destruct (decide (recognized key)) as [H|H].
    + rewrite (bool_decide_eq_true_2 _ H). cbn [negb].
      destruct (decide (~ recognized key)); [tauto|reflexivity].
    + rewrite (bool_decide_eq_false_2 _ H). cbn [negb].
      destruct (decide (~ recognized key)); [|tauto].
      rewrite <- app_assoc. reflexivity.
Qed.

Lemma map_index_blank_entries (criteria : GoMap) (name : string)
    (line : Z -> string) (errors : list string) :
  (let '(items, exists_) := map_index criteria name in
   if exists_ then blank_entries line items 0 errors else errors)
  = (errors ++ blank_lines line (category criteria name) 0)%list.
Proof.
  unfold map_index, category.
  destruct criteria as [g|]; [destruct (g !! name)|]; cbn;
    rewrite ?blank_entries_lines, ?app_nil_r; reflexivity.
Qed.

(** [validateQuizItem] reports every finding on the record: no check is
    skipped because an earlier one has found something. *)
Lemma validateQuizItem_findings (keys : list string) (item : QuizItem) (index : Z) :
  validateQuizItem keys item index = item_findings keys item index.
Proof.
  unfold validateQuizItem, item_findings. cbv zeta.
  destruct (Criteria item) as [g|] eqn:HC.
  - rewrite !map_index_blank_entries, fold_unrecognized, blank_entries_lines.
    rewrite <- !app_assoc. unfold go_append.
    destruct (String.eqb (TrimSpace (Question item)) "");
      destruct (String.eqb (TrimSpace (Answer item)) ""); reflexivity.
  - rewrite blank_entries_lines. unfold go_append.
    destruct (String.eqb (TrimSpace (Question item)) "");
      destruct (String.eqb (TrimSpace (Answer item)) ""); reflexivity.
Qed.

Lemma validate_items_findings
    (rangeKeys : Z -> gmap string (list string) -> list string)
    (data : list QuizItem) (i : Z) (result : ValidationResult) :
  validate_items rangeKeys data i result
  = {| IsValid := IsValid result
                  && bool_decide (all_findings rangeKeys data i = []);
       Errors := (Errors result ++ all_findings rangeKeys data i)%list;
       Items := Items result |}.
Proof.
  revert i result. induction data as [|item rest IH]; intros i result;
    cbn [validate_items all_findings].
  - destruct result as [v e n]. cbn. rewrite andb_true_r, app_nil_r. reflexivity.
  - rewrite IH. fold (item_keys rangeKeys item (i + 1)).
    rewrite validateQuizItem_findings.
    destruct (item_findings (item_keys rangeKeys item (i + 1)) item (i + 1))
      as [|e es]; cbn.
    + reflexivity.
    + rewrite <- app_assoc. rewrite andb_false_r. reflexivity.
Qed.

(** On a file that exists and decodes, the report lists the findings on all
    records, then the finding that there is no record; it is valid exactly
    when nothing is listed. *)
Lemma ValidateYAMLFile_Loaded
    (rangeKeys : Z -> gmap string (list string) -> list string)
    (data : list QuizItem) (yamlFilePath : string) :
  let findings :=
    (all_findings rangeKeys data 0
     ++ (if (length data =? 0)%nat
         then ["YAMLファイルにクイズデータが含まれていません"] else []))%list in
  ValidateYAMLFile rangeKeys (Loaded data) yamlFilePath
  = {| IsValid := bool_decide (findings = []);
       Errors := findings;
       Items := Z.of_nat (length data) |}.
Proof.
  unfold ValidateYAMLFile. rewrite validate_items_findings. cbn.
  destruct data as [|item rest]; [reflexivity|]. cbn [length Nat.eqb].
  rewrite app_nil_r. reflexivity.
Qed.

Lemma NoDup_all_equal {A : Type} (l : list A) (a : A) :
  NoDup l -> (forall x, x ∈ l -> x = a) -> a ∈ l -> l = [a].
Proof.
  intros Hnd Hall Hin. destruct l as [|x [|y l]].
  - inversion Hin.
  - rewrite (Hall x) by left. reflexivity.
  - exfalso. assert (x = a) as -> by (apply Hall; left).
    assert (y = a) as -> by (apply Hall; right; left).
    inversion Hnd as [|? ? Hx _]. apply Hx. left.
Qed.

(** A map with one key outside ok, ng and repeat yields that key once,
    whatever the order of the iteration. *)
Lemma filter_unrecognized_single (keys : list string)
    (m : gmap string (list string)) (k : string) :
  keys ≡ₚ elements (dom m) ->
  is_Some (m !! k) -> ~ recognized k ->
  (forall k', is_Some (m !! k') -> recognized k' \/ k' = k) ->
  filter (fun key => ~ recognized key) keys = [k].
Proof.
  intros Hperm Hk Hnot Honly.
  assert (Hin : forall x, x ∈ keys <-> is_Some (m !! x)).
  { intros x. rewrite Hperm, elem_of_elements. apply elem_of_dom. }
  apply NoDup_all_equal.
  - apply NoDup_filter. rewrite Hperm. apply NoDup_elements.
  - intros x [Hx Hxin]%list_elem_of_filter.
    destruct (Honly x) as [?|?]; [apply Hin, Hxin|tauto|assumption].
  - apply list_elem_of_filter. split; [assumption|]. apply Hin, Hk.
Qed.

(** C7. On an empty record collection the report is invalid, holds the issue
    that the file contains no quiz data, and counts zero records. *)
Theorem ValidateYAMLFile_empty
    (rangeKeys : Z -> gmap string (list string) -> list string)
    (yamlFilePath : string) :
  ValidateYAMLFile rangeKeys (Loaded []) yamlFilePath
  = {| IsValid := false;
       Errors := ["YAMLファイルにクイズデータが含まれていません"];
       Items := 0 |}.
Proof. reflexivity. Qed.

(** C6, as amended.  The validation gathers all findings and does not stop at
    the first: the report on a decoded file is the list of the findings on
    every record.  For a sole record with a non-blank question, an empty
    answer, a criteria map with exactly one unrecognised key and no blank
    entry under the recognised keys, and no blank comment, the report is
    invalid and holds exactly two issues, the empty answer and the
    unrecognised key, whatever the order in which the keys are visited. *)
Theorem validation_accumulates
    (rangeKeys : Z -> gmap string (list string) -> list string) :
  (forall (data : list QuizItem) (yamlFilePath : string),
     Errors (ValidateYAMLFile rangeKeys (Loaded data) yamlFilePath)
     = (all_findings rangeKeys data 0
        ++ (if (length data =? 0)%nat
            then ["YAMLファイルにクイズデータが含まれていません"] else []))%list)
  /\ (forall (item : QuizItem) (m : gmap string (list string)) (k yamlFilePath : string),
        (forall i g, rangeKeys i g ≡ₚ elements (dom g)) ->
        not_blank (Question item) ->
        Answer item = "" ->
        Criteria item = Some m ->
        is_Some (m !! k) -> ~ recognized k ->
        (forall k', is_Some (m !! k') -> recognized k' \/ k' = k) ->
        (forall key, recognized key -> Forall not_blank (category (Some m) key)) ->
        Forall not_blank (Comments item) ->
        ValidateYAMLFile rangeKeys (Loaded [item]) yamlFilePath
        = {| IsValid := false;
             Errors := [ "問題 1: 答え (answer) が空です";
                         "問題 1: 不正なcriteriaキー: '" ++ k
                           ++ "' (使用可能: ok, ng, repeat)" ];
             Items := 1 |}).
Proof.
  split.
  - intros data yamlFilePath. rewrite ValidateYAMLFile_Loaded. reflexivity.
  - intros item m k yamlFilePath Hperm Hq Ha HC Hk Hnot Honly Hlists Hcomments.
    rewrite ValidateYAMLFile_Loaded. cbn [all_findings length Nat.eqb].
    unfold item_findings, item_keys. rewrite HC, Ha.
    rewrite (filter_unrecognized_single _ m k (Hperm _ m) Hk Hnot Honly).
    rewrite !blank_lines_none
      by (assumption || (apply Hlists; unfold recognized; auto)).
    apply String.eqb_neq in Hq. rewrite Hq.
    reflexivity.
Qed.

Lemma validation_accumulates_witness :
  ValidateYAMLFile (fun _ g => elements (dom g))
    (Loaded [ {| Question := "q"; Answer := ""; Spell := "";
                 Comments := ["c"];
                 Criteria := Some (<["ok" := ["a"]]> {["okay" := ["x"]]}) |} ])
    "quiz.yaml"
  = {| IsValid := false;
       Errors := [ "問題 1: 答え (answer) が空です";
                   "問題 1: 不正なcriteriaキー: 'okay' (使用可能: ok, ng, repeat)" ];
       Items := 1 |}.
Proof.
  apply (proj2 (validation_accumulates (fun _ g => elements (dom g)))
           _ (<["ok" := ["a"]]> {["okay" := ["x"]]}) "okay").
  - reflexivity.
  - apply (bool_decide_unpack _). vm_compute. exact I.
  - reflexivity.
  - reflexivity.
  - exists ["x"]. reflexivity.
  - unfold recognized. intros [H|[H|H]]; discriminate H.
  - intros k' [v Hv]. apply lookup_insert_Some in Hv as [ [ <- _ ] | [ _ Hv ] ].
    + left. left. reflexivity.
    + apply lookup_singleton_Some in Hv as [ <- _ ]. right. reflexivity.
  - intros key [ -> | [ -> | -> ] ]; apply (bool_decide_unpack _);
      vm_compute; exact I.
  - apply (bool_decide_unpack _). vm_compute. exact I.
Defined.

(** The claim C6 as first stated puts no condition on the comments; a record
    that meets all its conditions and has a blank comment gets three issues. *)
Lemma validation_two_issues_counterexample :
  let item := {| Question := "q"; Answer := ""; Spell := "";
                 Comments := [""];
                 Criteria := Some {["okay" := ["x"]]} |} in
  not_blank (Question item)
  /\ Answer item = ""
  /\ (forall k', is_Some (({["okay" := ["x"]]} : gmap string (list string)) !! k')
                 -> k' = "okay")
  /\ ~ recognized "okay"
  /\ ValidateYAMLFile (fun _ g => elements (dom g)) (Loaded [item]) "quiz.yaml"
     = {| IsValid := false;
          Errors := [ "問題 1: 答え (answer) が空です";
                      "問題 1: 不正なcriteriaキー: 'okay' (使用可能: ok, ng, repeat)";
                      "問題 1: comments[0] が空です" ];
          Items := 1 |}.
Proof.
  cbv zeta. split; [|split; [|split; [|split]]].
  - apply (bool_decide_unpack _). vm_compute. exact I.
  - reflexivity.
  - intros k' [v Hv]. apply lookup_singleton_Some in Hv as [ <- _ ]. reflexivity.
  - unfold recognized. intros [H|[H|H]]; discriminate H.
  - vm_compute. reflexivity.
Qed.

(** ** White space and the normaliser *)

Lemma IsSpace_space_runes (r : Z) : IsSpace r = true -> In r space_runes.
Proof.
  unfold IsSpace, space_runes. cbn [In].
  destruct ((0 <=? r) && (r <=? 0xFF)) eqn:E; intros H;
    repeat (apply orb_true_iff in H as [H|H] || apply andb_true_iff in H as [H ?]);
    lia.
Qed.

Lemma last_byte_app (a b : string) :
  b <> "" -> last_byte (a ++ b) = last_byte b.
Proof.
  intros Hb. induction a as [|c a IH]; [reflexivity|].
  rewrite string_app_cons. cbn [last_byte]. rewrite IH.
  destruct (a ++ b) eqn:E; [|reflexivity].
  destruct a; [|discriminate E]. contradiction.
Qed.

Lemma space_rune_plain (r : Z) : In r space_runes -> plain_encoding (EncodeRune r).
Proof.
  unfold space_runes. cbn [In]. intros H.
  repeat (destruct H as [<-|H]; [|try contradiction]);
    (split; [discriminate|]; split; [discriminate|]; intros tail;
     destruct (HasPrefix _ "「") eqn:E; [|reflexivity];
     apply HasPrefix_spec in E as [rest E]; vm_compute in E; congruence).
Qed.

Lemma string_of_runes_app (l l' : list Z) :
  string_of_runes (l ++ l') = string_of_runes l ++ string_of_runes l'.
Proof.
  induction l as [|r l IH]; [reflexivity|].
  cbn [app string_of_runes fold_right]. fold (string_of_runes (l ++ l')).
  fold (string_of_runes l). rewrite IH, string_app_assoc. reflexivity.
Qed.

(** White space does not start with 「 and does not end with 」. *)
Lemma whitespace_no_bracket (s : string) :
  whitespace_only s -> HasPrefix s "「" = false /\ HasSuffix s "」" = false.
Proof.
  intros (runes & Hall & ->). split.
  - destruct runes as [|r runes]; [reflexivity|].
    apply Forall_inv in Hall.
    apply IsSpace_space_runes, space_rune_plain in Hall as (_ & _ & H). apply H.
  - destruct (HasSuffix _ "」") eqn:E; [|reflexivity]. exfalso.
    apply HasSuffix_spec in E as [front E].
    destruct runes as [|r0 runes0] using rev_ind.
    + destruct front; discriminate E.
    + clear IHrunes0. apply Forall_app in Hall as [_ Hall]. apply Forall_inv in Hall.
      apply IsSpace_space_runes, space_rune_plain in Hall as (Hne & Hlast & _).
      apply Hlast. rewrite string_of_runes_app in E.
      cbn [string_of_runes fold_right] in E. rewrite string_app_nil_r in E.
      rewrite <- (last_byte_app (string_of_runes runes0) _ Hne), E.
      apply last_byte_app. discriminate.
Qed.

(** C8. The empty string becomes the empty bracketed pair, by the last case
    of the table (it neither starts with 「 nor ends with 」).  A string of
    white space only goes through the same decision table as any other
    string, where it falls into the last case as well: 「 is put in front
    and 」 behind. *)
Theorem AddQuotesIfNeeded_whitespace :
  (AddQuotesIfNeeded "" = "「」"
   /\ HasPrefix "" "「" = false /\ HasSuffix "" "」" = false)
  /\ (forall s, whitespace_only s -> AddQuotesIfNeeded s = normalize_table s)
  /\ (forall s, whitespace_only s -> AddQuotesIfNeeded s = "「" ++ s ++ "」")
  /\ AddQuotesIfNeeded "  " = "「  」"
  /\ AddQuotesIfNeeded "　" = "「　」".
Proof.
  split; [repeat split|]. split; [|split; [|split; reflexivity]].
  - intros s _. apply AddQuotesIfNeeded_normalize_table.
  - intros s [P S_]%whitespace_no_bracket.
    unfold AddQuotesIfNeeded. rewrite P, S_. reflexivity.
Qed.

Lemma AddQuotesIfNeeded_whitespace_witness :
  AddQuotesIfNeeded (string_of_runes [0x20; 0x3000; 0x09])
  = "「" ++ string_of_runes [0x20; 0x3000; 0x09] ++ "」".
Proof.
  apply (proj1 (proj2 (proj2 AddQuotesIfNeeded_whitespace))).
  exists [0x20; 0x3000; 0x09]. split; [|reflexivity].
  repeat constructor.
Defined.

(** ** The loops of [TrimSpace] *)

Lemma scan_start_lt (s : string) (start : Z) (steps : nat) :
  scan_start s start steps < start.
Proof.
  revert start. induction steps as [|k IH]; intros start; cbn [scan_start]; [lia|].
  destruct (RuneStart _); [lia|]. specialize (IH (start - 1)). lia.
Qed.

(** A rune decoded at the end of a non-empty string takes at least one of
    its bytes and no more than all of them. *)
Lemma DecodeLastRuneInString_size (s : string) (r : Z) (size : nat) :
  s <> "" -> DecodeLastRuneInString s = (r, size) ->
  (1 <= size <= String.length s)%nat.
Proof.
  intros Hs. unfold DecodeLastRuneInString.
  assert (Hlen : (1 <= String.length s)%nat)
    by (destruct s; [contradiction|cbn; lia]).
  destruct (String.length s =? 0)%nat eqn:E0;
    [apply Nat.eqb_eq in E0; lia|].
  destruct (byte_at s (String.length s - 1) <? RuneSelf).
  { intros [= _ <-]. lia. }
  set (scan := scan_start s _ _).
  assert (Hscan : scan < Z.of_nat (String.length s - 1)) by apply scan_start_lt.
  set (start := if scan <? 0 then 0%nat else Z.to_nat scan).
  assert (Hstart : (start < String.length s)%nat).
  { unfold start. destruct (scan <? 0) eqn:E; [lia|]. apply Z.ltb_ge in E. lia. }
  destruct (DecodeRuneInString _) as [r' size'].
  destruct (start + size' =? String.length s)%nat eqn:E; cbn [negb].
  - apply Nat.eqb_eq in E. intros [= _ <-]. lia.
  - intros [= _ <-]. lia.
Qed.

(** The loop of [lastIndexFunc] ends before its bound on the number of
    iterations is reached: any bound from [i] on gives the same result. *)
Lemma lastIndexFunc_from_fuel (f : Z -> bool) (truth : bool) (s : string)
    (fuel fuel' i : nat) :
  (i <= String.length s)%nat -> (i <= fuel)%nat -> (i <= fuel')%nat ->
  lastIndexFunc_from f truth s fuel i = lastIndexFunc_from f truth s fuel' i.
Proof.
  revert fuel' i. induction fuel as [|fuel IH]; intros fuel' i Hi Hf Hf'.
  - assert (i = 0%nat) as -> by lia. destruct fuel'; reflexivity.
  - destruct fuel' as [|fuel'].
    + assert (i = 0%nat) as -> by lia. reflexivity.
    + cbn [lastIndexFunc_from]. destruct (0 <? i)%nat eqn:E; [|reflexivity].
      apply Nat.ltb_lt in E.
      destruct (DecodeLastRuneInString (slice_to i s)) as [r size] eqn:D.
      apply DecodeLastRuneInString_size in D.
      * destruct (Bool.eqb (f r) truth); [reflexivity|]. apply IH; lia.
      * intros H. apply (f_equal String.length) in H.
        rewrite slice_to_length in H by assumption. cbn in H. lia.
Qed.

Lemma indexFunc_from_skip (f : Z -> bool) (truth : bool) (a tail : string) (i : Z) :
  indexFunc_from f truth (a ++ tail) (String.length a) i
  = indexFunc_from f truth tail 0 (i + Z.of_nat (String.length a)).
Proof.
  revert i. induction a as [|c a IH]; intros i.
  - cbn [String.length]. replace (i + Z.of_nat 0) with i by lia. reflexivity.
  - rewrite string_app_cons. cbn [String.length indexFunc_from]. rewrite IH.
    f_equal. lia.
Qed.

(** Decoding undoes the encoding of a white space rune, whatever follows. *)
Lemma DecodeRuneInString_space (r : Z) (tail : string) :
  In r space_runes ->
  DecodeRuneInString (EncodeRune r ++ tail)
  = (r, String.length (EncodeRune r)).
Proof.
  unfold space_runes. cbn [In]. intros H.
  repeat (destruct H as [<-|H]; [reflexivity|]). contradiction.
Qed.

Lemma space_rune_first_byte (r : Z) :
  In r space_runes ->
  exists c e, EncodeRune r = String c e
    /\ ((RuneSelf <=? byte_val c) = true
        \/ ((RuneSelf <=? byte_val c) = false
            /\ asciiSpace (byte_val c) = true /\ e = "")).
Proof.
  unfold space_runes. cbn [In]. intros H.
  repeat (destruct H as [<-|H];
          [eexists _, _; split; [reflexivity|vm_compute; auto]|]).
  contradiction.
Qed.

Lemma indexFunc_from_whitespace (runes : list Z) (i : Z) :
  Forall (fun r => IsSpace r = true) runes ->
  indexFunc_from IsSpace false (string_of_runes runes) 0 i = -1.
Proof.
  intros Hall. revert i. induction Hall as [|r runes Hr _ IH]; intros i;
    [reflexivity|].
  cbn [string_of_runes fold_right]. fold (string_of_runes runes).
  pose proof (DecodeRuneInString_space r (string_of_runes runes)
                (IsSpace_space_runes r Hr)) as D.
  destruct (EncodeRune r) as [|c e] eqn:He.
  { apply IsSpace_space_runes, space_rune_plain in Hr as [Hne _].
    rewrite He in Hne. contradiction. }
  rewrite string_app_cons in *. cbn [indexFunc_from]. rewrite D, Hr.
  cbn [Bool.eqb String.length]. replace (S (String.length e) - 1)%nat
    with (String.length e) by lia.
  rewrite indexFunc_from_skip. apply IH.
Qed.

(** The white space strings are among those that the validation reports as
    blank. *)
Lemma TrimSpace_whitespace (s : string) : whitespace_only s -> TrimSpace s = "".
Proof.
  intros (runes & Hall & ->). induction Hall as [|r runes Hr Hall IH];
    [reflexivity|].
  assert (Hidx : indexFunc (string_of_runes (r :: runes)) IsSpace false = -1)
    by (apply indexFunc_from_whitespace; constructor; assumption).
  cbn [string_of_runes fold_right] in *. fold (string_of_runes runes) in *.
  destruct (space_rune_first_byte r (IsSpace_space_runes r Hr))
    as (c & e & He & [Hc|(Hc & Hsp & ->)]); rewrite He in *;
    rewrite string_app_cons in *; cbn [TrimSpace]; rewrite Hc.
  - unfold TrimFunc, TrimLeftFunc. rewrite Hidx. reflexivity.
  - rewrite Hsp. cbn [negb]. exact IH.
Qed.

(** ** More on the bracket normaliser *)

Lemma Contains_false_HasSuffix (s q : string) :
  Contains s q = false -> HasSuffix s q = false.
Proof.
  intros H. destruct (HasSuffix s q) eqn:E; [|reflexivity].
  apply HasSuffix_Contains in E. congruence.
Qed.

(** A close bracket cannot begin inside the three bytes of an open bracket:
    it occurs in [「s] only where it occurs in [s]. *)
Lemma Contains_open_app (s : string) :
  Contains ("「" ++ s) "」" = Contains s "」".
Proof.
  apply eq_true_iff_eq. rewrite !Contains_spec. split.
  - intros (a & b & H).
    destruct a as [|a0 [|a1 [|a2 a]]]; vm_compute in H; try congruence.
    injection H as _ _ _ H. exists a, b. exact H.
  - intros (a & b & ->). exists ("「" ++ a), b.
    symmetry. apply string_app_assoc.
Qed.

(** An open bracket cannot end inside the three bytes of a close bracket. *)
Lemma HasPrefix_app_close (s : string) :
  HasPrefix (s ++ "」") "「" = HasPrefix s "「".
Proof.
  apply eq_true_iff_eq. split; [|apply HasPrefix_app_r].
  intros [r H]%HasPrefix_spec. apply HasPrefix_spec.
  destruct s as [|a0 [|a1 [|a2 s]]]; vm_compute in H; try congruence.
  injection H as -> -> -> H. exists s. reflexivity.
Qed.

Lemma HasPrefix_Contains_length (t : string) :
  HasPrefix t "「" = true -> Contains t "」" = true ->
  (6 <= String.length t)%nat.
Proof.
  intros [r ->]%HasPrefix_spec C_. rewrite Contains_open_app in C_.
  apply Contains_spec in C_ as (a & b & ->).
  rewrite !string_length_app. cbn. lia.
Qed.

(** X1. The strings that [AddQuotesIfNeeded] returns as they are, are
    exactly those that start with 「 and contain 」. *)
Theorem AddQuotesIfNeeded_fixed_points (s : string) :
  AddQuotesIfNeeded s = s
  <-> HasPrefix s "「" = true /\ Contains s "」" = true.
Proof.
  split.
  - intros H. rewrite <- H. apply AddQuotesIfNeeded_bracketed.
  - intros [P C_]. apply AddQuotesIfNeeded_fixed; assumption.
Qed.

(** X2. The result is never shorter than the pair of brackets (six bytes),
    and it is longer than the input by zero, three or six bytes. *)
Theorem AddQuotesIfNeeded_length (s : string) :
  (6 <= String.length (AddQuotesIfNeeded s))%nat
  /\ (String.length (AddQuotesIfNeeded s) = String.length s
      \/ String.length (AddQuotesIfNeeded s) = String.length s + 3
      \/ String.length (AddQuotesIfNeeded s) = String.length s + 6)%nat.
Proof.
  split.
  - destruct (AddQuotesIfNeeded_bracketed s) as [P C_].
    apply HasPrefix_Contains_length; assumption.
  - destruct (AddQuotesIfNeeded_case s); rewrite ?string_length_app; cbn; lia.
Qed.

(** X3. A text with no bracket in front and no close bracket anywhere gets
    the same normal form whether it comes bare, with the open bracket only,
    with the close bracket only, or with both. *)
Theorem AddQuotesIfNeeded_completes (s : string) :
  HasPrefix s "「" = false -> Contains s "」" = false ->
  AddQuotesIfNeeded s = "「" ++ s ++ "」"
  /\ AddQuotesIfNeeded ("「" ++ s) = "「" ++ s ++ "」"
  /\ AddQuotesIfNeeded (s ++ "」") = "「" ++ s ++ "」"
  /\ AddQuotesIfNeeded ("「" ++ s ++ "」") = "「" ++ s ++ "」".
Proof.
  intros P C_. pose proof (Contains_false_HasSuffix _ _ C_) as S_.
  repeat split.
  - unfold AddQuotesIfNeeded. rewrite P, S_. reflexivity.
  - unfold AddQuotesIfNeeded.
    rewrite HasPrefix_app, Contains_open_app, C_.
    rewrite (Contains_false_HasSuffix ("「" ++ s) "」")
      by (rewrite Contains_open_app; exact C_).
    cbn [andb]. apply string_app_assoc.
  - unfold AddQuotesIfNeeded.
    rewrite HasPrefix_app_close, P, HasSuffix_app. reflexivity.
  - apply AddQuotesIfNeeded_fixed; [apply HasPrefix_app|].
    rewrite <- string_app_assoc. apply Contains_app_r.
Qed.

Lemma AddQuotesIfNeeded_completes_witness :
  AddQuotesIfNeeded "test" = "「" ++ "test" ++ "」"
  /\ AddQuotesIfNeeded ("「" ++ "test") = "「" ++ "test" ++ "」"
  /\ AddQuotesIfNeeded ("test" ++ "」") = "「" ++ "test" ++ "」"
  /\ AddQuotesIfNeeded ("「" ++ "test" ++ "」") = "「" ++ "test" ++ "」".
Proof. apply AddQuotesIfNeeded_completes; reflexivity. Defined.

(** ** More on the criteria formatter *)

Lemma AddQuotesIfNeeded_bracketed_twice (s : string) :
  AddQuotesIfNeeded (AddQuotesIfNeeded s) = AddQuotesIfNeeded s.
Proof.
  destruct (AddQuotesIfNeeded_bracketed s) as [P C_].
  apply AddQuotesIfNeeded_fixed; assumption.
Qed.

Lemma concat_all_app (l l' : list string) :
  concat_all (l ++ l') = concat_all l ++ concat_all l'.
Proof.
  induction l as [|e l IH]; [reflexivity|].
  cbn [app concat_all fold_right]. fold (concat_all (l ++ l')).
  fold (concat_all l). rewrite IH, string_app_assoc. reflexivity.
Qed.

Lemma Join_cons_nonempty (c : ascii) (t : string) (rest : list string) (sep : string) :
  exists t', Join (String c t :: rest) sep = String c t'.
Proof. destruct rest; eexists; reflexivity. Qed.

Lemma section_part_cases (items : list string) (suffix : string) :
  (items = [] /\ section_part items suffix = [])
  \/ (items <> []
      /\ exists t, section_part items suffix = [String "227" (String "128" (String "140" t))]).
Proof.
  destruct items as [|x items]; [left; split; reflexivity|right].
  split; [discriminate|]. unfold section_part. cbn [length Nat.ltb Nat.leb].
  rewrite formatCriteriaSection_spec.
  cbn [formatSection_spec map concat_all fold_right].
  destruct (AddQuotesIfNeeded_bracketed x) as [[r ->]%HasPrefix_spec _].
  eexists. reflexivity.
Qed.

(** X4. A section is the empty string exactly when the list is empty:
    whatever the suffix, a list with an element gives a non-empty section. *)
Theorem formatCriteriaSection_empty_iff (items : list string) (suffix : string) :
  formatCriteriaSection items suffix = "" <-> items = [].
Proof.
  split.
  - destruct items as [|x items]; [reflexivity|].
    destruct (formatCriteriaSection_cons x items suffix) as (c & t & ->).
    discriminate.
  - intros ->. reflexivity.
Qed.

(** X5. Sections compose: the section of two non-empty lists put together
    is the section of the first without suffix followed by the section of
    the second, and the suffix is only ever added at the end. *)
Theorem formatCriteriaSection_app
    (x y : string) (l1 l2 : list string) (suffix : string) :
  formatCriteriaSection ((x :: l1) ++ (y :: l2)) suffix
  = formatCriteriaSection (x :: l1) "" ++ formatCriteriaSection (y :: l2) suffix
  /\ formatCriteriaSection (x :: l1) suffix
     = formatCriteriaSection (x :: l1) "" ++ suffix.
Proof.
  rewrite !formatCriteriaSection_spec. split.
  - cbn [app formatSection_spec]. rewrite string_app_nil_r.
    change (x :: (l1 ++ y :: l2)%list) with ((x :: l1) ++ (y :: l2))%list.
    rewrite map_app, concat_all_app, string_app_assoc. reflexivity.
  - cbn [formatSection_spec]. rewrite string_app_nil_r. reflexivity.
Qed.

Lemma formatCriteriaSection_map_normalize (items : list string) (suffix : string) :
  formatCriteriaSection (map AddQuotesIfNeeded items) suffix
  = formatCriteriaSection items suffix.
Proof.
  rewrite !formatCriteriaSection_spec.
  destruct items as [|x items]; [reflexivity|].
  cbn [map formatSection_spec]. rewrite AddQuotesIfNeeded_bracketed_twice.
  rewrite map_map.
  rewrite (map_ext _ AddQuotesIfNeeded)
    by (intros a; apply AddQuotesIfNeeded_bracketed_twice).
  reflexivity.
Qed.

Lemma category_fmap (f : list string -> list string) (g : gmap string (list string))
    (name : string) :
  f [] = [] -> category (Some (f <$> g)) name = f (category (Some g) name).
Proof.
  intros Hf. cbn [category]. rewrite lookup_fmap.
  destruct (g !! name); cbn; [reflexivity|symmetry; exact Hf].
Qed.

Lemma section_part_normalize (items : list string) (suffix : string) :
  section_part (map AddQuotesIfNeeded items) suffix = section_part items suffix.
Proof.
  unfold section_part. rewrite length_map, formatCriteriaSection_map_normalize.
  reflexivity.
Qed.

(** X6. Normalising the elements beforehand changes nothing, neither in a
    section nor in the whole judgement string. *)
Theorem FormatCriteria_normalized :
  (forall (items : list string) (suffix : string),
     formatCriteriaSection (map AddQuotesIfNeeded items) suffix
     = formatCriteriaSection items suffix)
  /\ (forall g : gmap string (list string),
        FormatCriteria (Some (map AddQuotesIfNeeded <$> g))
        = FormatCriteria (Some g)).
Proof.
  split; [exact formatCriteriaSection_map_normalize|].
  intros g. rewrite !FormatCriteria_parts.
  rewrite !(category_fmap (map AddQuotesIfNeeded)) by reflexivity.
  rewrite !section_part_normalize. reflexivity.
Qed.

(** X7. The judgement string is empty exactly when each of the three
    categories is absent or empty. *)
Theorem FormatCriteria_empty_iff (criteria : GoMap) :
  FormatCriteria criteria = ""
  <-> category criteria "ok" = [] /\ category criteria "ng" = []
      /\ category criteria "repeat" = [].
Proof.
  rewrite FormatCriteria_parts. split.
  - destruct (section_part_cases (category criteria "ok") "")
      as [[Hok ->]|[_ [t ->]]];
    [destruct (section_part_cases (category criteria "ng") "は誤答")
       as [[Hng ->]|[_ [t ->]]];
     [destruct (section_part_cases (category criteria "repeat") "はもう一度")
        as [[Hrep ->]|[_ [t ->]]]|]|].
    + auto.
    + cbn [app]. destruct (Join_cons_nonempty "227" (String "128" (String "140" t)) [] "／")
        as [t' ->]. discriminate.
    + cbn [app]. destruct (Join_cons_nonempty "227" (String "128" (String "140" t))
                             (section_part (category criteria "repeat") "はもう一度") "／")
        as [t' ->]. discriminate.
    + cbn [app]. destruct (Join_cons_nonempty "227" (String "128" (String "140" t))
                             (section_part (category criteria "ng") "は誤答"
                              ++ section_part (category criteria "repeat") "はもう一度")%list "／")
        as [t' ->]. discriminate.
  - intros (-> & -> & ->). reflexivity.
Qed.

(** X8. A judgement string that is not empty starts with the open
    bracket. *)
Theorem FormatCriteria_starts_bracketed (criteria : GoMap) :
  FormatCriteria criteria = ""
  \/ HasPrefix (FormatCriteria criteria) "「" = true.
Proof.
  rewrite FormatCriteria_parts.
  set (ng := section_part (category criteria "ng") "は誤答").
  set (rep := section_part (category criteria "repeat") "はもう一度").
  assert (Hstart : forall t rest,
             HasPrefix (Join (String "227" (String "128" (String "140" t)) :: rest) "／")
               "「" = true).
  { intros t rest. apply HasPrefix_spec. destruct rest; eexists; reflexivity. }
  destruct (section_part_cases (category criteria "ok") "")
    as [[_ ->]|[_ [t ->]]]; [|right; apply Hstart].
  destruct (section_part_cases (category criteria "ng") "は誤答")
    as [[_ E]|[_ [t E]]]; fold ng in E; rewrite E; [|right; apply Hstart].
  destruct (section_part_cases (category criteria "repeat") "はもう一度")
    as [[_ E']|[_ [t E']]]; fold rep in E'; rewrite E'; [left; reflexivity|].
  right. apply Hstart.
Qed.

(** X9. An entry with an empty list counts like a missing entry, under any
    key. *)
Theorem FormatCriteria_empty_list_as_absent
    (g : gmap string (list string)) (key : string) :
  FormatCriteria (Some (<[key := []]> g)) = FormatCriteria (Some (delete key g)).
Proof.
  apply FormatCriteria_ext. intros name _. cbn [category].
  destruct (decide (key = name)) as [->|Hne].
  - rewrite lookup_insert_eq, lookup_delete_eq. reflexivity.
  - rewrite lookup_insert_ne, lookup_delete_ne by assumption. reflexivity.
Qed.

(** ** More on the validation pass *)

Lemma blank_lines_nil_iff (line : Z -> string) (xs : list string) (j : Z) :
  blank_lines line xs j = [] <-> Forall not_blank xs.
Proof.
  split; [|apply blank_lines_none].
  revert j. induction xs as [|x xs IH]; intros j H; [constructor|].
  cbn [blank_lines] in H. apply app_nil in H as [Hx Hxs].
  constructor; [|apply (IH _ Hxs)].
  unfold not_blank. intros E. rewrite E in Hx. discriminate Hx.
Qed.

Lemma unrecognized_nil_iff (line : string -> string) (keys : list string) :
  map line (filter (fun key => ~ recognized key) keys) = []
  <-> forall key, key ∈ keys -> recognized key.
Proof.
  split.
  - intros H key Hin. apply map_eq_nil in H.
    destruct (decide (recognized key)) as [Hr|Hr]; [exact Hr|exfalso].
    assert (Hf : key ∈ filter (fun key => ~ recognized key) keys)
      by (apply list_elem_of_filter; auto).
    rewrite H in Hf. inversion Hf.
  - intros H. induction keys as [|key keys IH]; [reflexivity|].
    rewrite filter_cons. destruct (decide (~ recognized key)) as [Hn|_].
    + exfalso. apply Hn, H. left.
    + apply IH. intros key' Hin. apply H. right. exact Hin.
Qed.

(** A record has no finding exactly when it is well formed, provided [keys]
    holds the keys of its criteria map. *)
Lemma item_findings_nil_iff (keys : list string) (item : QuizItem) (index : Z) :
  (forall g, Criteria item = Some g -> forall key, key ∈ keys <-> is_Some (g !! key)) ->
  item_findings keys item index = [] <-> well_formed item.
Proof.
  intros Hkeys. unfold item_findings, well_formed. cbv zeta.
  destruct (Criteria item) as [g|] eqn:HC.
  - rewrite !app_nil, !blank_lines_nil_iff, unrecognized_nil_iff.
    specialize (Hkeys g eq_refl).
    destruct (String.eqb_spec (TrimSpace (Question item)) "") as [Hq|Hq];
      destruct (String.eqb_spec (TrimSpace (Answer item)) "") as [Ha|Ha];
      unfold not_blank at 1 2; split;
      try (intros (? & ? & _); (discriminate || congruence));
      try (intros (? & ? & _); congruence).
    + intros (_ & _ & Hok & Hng & Hrep & Hun & Hcom).
      repeat split; try assumption.
      * intros key [ -> | [ -> | -> ] ]; assumption.
      * intros g' key [= <-] Hsome. apply Hun, Hkeys, Hsome.
    + intros (_ & _ & Hlists & Hun & Hcom).
      repeat split; try assumption;
        try (apply Hlists; unfold recognized; auto).
      intros key Hin. apply (Hun g key eq_refl), Hkeys, Hin.
  - rewrite !app_nil, !blank_lines_nil_iff.
    destruct (String.eqb_spec (TrimSpace (Question item)) "") as [Hq|Hq];
      destruct (String.eqb_spec (TrimSpace (Answer item)) "") as [Ha|Ha];
      unfold not_blank at 1 2; split;
      try (intros (? & ? & _); (discriminate || congruence)).
    + intros (_ & _ & Hcom). repeat split; try assumption.
      * intros key _. constructor.
      * intros g' key [=].
    + intros (_ & _ & _ & _ & Hcom). auto.
Qed.

Lemma all_findings_nil_iff
    (rangeKeys : Z -> gmap string (list string) -> list string)
    (data : list QuizItem) (i : Z) :
  (forall n g, rangeKeys n g ≡ₚ elements (dom g)) ->
  all_findings rangeKeys data i = [] <-> Forall well_formed data.
Proof.
  intros Hperm. revert i. induction data as [|item rest IH]; intros i.
  - split; [constructor|reflexivity].
  - cbn [all_findings]. rewrite app_nil, IH, Forall_cons, item_findings_nil_iff;
      [reflexivity|].
    intros g HC key. unfold item_keys. rewrite HC, Hperm, elem_of_elements.
    apply elem_of_dom.
Qed.

(** X10. Whatever happens to the file, the report is valid exactly when it
    lists no issue; it counts the records of a file that decodes, also when
    they have issues, and zero records otherwise. *)
Theorem ValidateYAMLFile_valid_iff_no_issue
    (rangeKeys : Z -> gmap string (list string) -> list string)
    (file : LoadOutcome) (yamlFilePath : string) :
  (IsValid (ValidateYAMLFile rangeKeys file yamlFilePath) = true
   <-> Errors (ValidateYAMLFile rangeKeys file yamlFilePath) = [])
  /\ Items (ValidateYAMLFile rangeKeys file yamlFilePath)
     = match file with
       | Loaded data => Z.of_nat (length data)
       | _ => 0
       end.
Proof.
  destruct file as [|err|data].
  - split; [split; discriminate|reflexivity].
  - split; [split; discriminate|reflexivity].
  - rewrite ValidateYAMLFile_Loaded. cbn [IsValid Errors Items].
    split; [apply bool_decide_eq_true|reflexivity].
Qed.

(** X11. A file that decodes is valid exactly when it holds at least one
    record and every record is well formed, whatever the order in which the
    keys of the criteria maps are visited. *)
Theorem ValidateYAMLFile_valid_iff_well_formed
    (rangeKeys : Z -> gmap string (list string) -> list string)
    (data : list QuizItem) (yamlFilePath : string) :
  (forall n g, rangeKeys n g ≡ₚ elements (dom g)) ->
  IsValid (ValidateYAMLFile rangeKeys (Loaded data) yamlFilePath) = true
  <-> data <> [] /\ Forall well_formed data.
Proof.
  intros Hperm. rewrite ValidateYAMLFile_Loaded. cbn [IsValid].
  rewrite bool_decide_eq_true, app_nil, (all_findings_nil_iff _ _ _ Hperm).
  destruct data as [|item rest]; cbn [length Nat.eqb].
  - split; [intros [_ H]; discriminate H|intros [H _]; contradiction].
  - split; [intros [H _]; split; [discriminate|exact H]|intros [_ H]; auto].
Qed.

Lemma ValidateYAMLFile_valid_iff_well_formed_witness :
  IsValid
    (ValidateYAMLFile (fun _ g => elements (dom g))
       (Loaded [ {| Question := "q"; Answer := "a"; Spell := "";
                    Comments := ["c"];
                    Criteria := Some {["ng" := ["x"]]} |} ])
       "quiz.yaml") = true.
Proof.
  apply ValidateYAMLFile_valid_iff_well_formed; [reflexivity|].
  split; [discriminate|]. constructor; [|constructor].
  repeat split; cbn [Question Answer Comments Criteria].
  - apply (bool_decide_unpack _). vm_compute. exact I.
  - apply (bool_decide_unpack _). vm_compute. exact I.
  - intros key [ -> | [ -> | -> ] ]; apply (bool_decide_unpack _);
      vm_compute; exact I.
  - intros g key [= <-] [v Hv].
    apply lookup_singleton_Some in Hv as [ <- _ ]. right. left. reflexivity.
  - apply (bool_decide_unpack _). vm_compute. exact I.
Defined.

Lemma item_findings_Permutation (keys keys' : list string) (item : QuizItem) (index : Z) :
  keys ≡ₚ keys' -> item_findings keys item index ≡ₚ item_findings keys' item index.
Proof.
  intros H. unfold item_findings. cbv zeta.
  destruct (Criteria item); [|reflexivity].
  repeat (apply Permutation_app; [reflexivity|]).
  apply Permutation_app; [|reflexivity].
  apply Permutation_map. rewrite H. reflexivity.
Qed.

Lemma all_findings_Permutation
    (rangeKeys rangeKeys' : Z -> gmap string (list string) -> list string)
    (data : list QuizItem) (i : Z) :
  (forall n g, rangeKeys n g ≡ₚ rangeKeys' n g) ->
  all_findings rangeKeys data i ≡ₚ all_findings rangeKeys' data i.
Proof.
  intros H. revert i. induction data as [|item rest IH]; intros i; [reflexivity|].
  cbn [all_findings]. apply Permutation_app; [|apply IH].
  apply item_findings_Permutation. unfold item_keys.
  destruct (Criteria item); [apply H|reflexivity].
Qed.

(** X12. The order in which the runtime ranges over the criteria maps only
    permutes the issues: two runs on the same records report the same
    issues up to their order, the same number of them, and agree on the
    validity and on the record count. *)
Theorem ValidateYAMLFile_order_independent
    (rangeKeys rangeKeys' : Z -> gmap string (list string) -> list string)
    (file : LoadOutcome) (yamlFilePath : string) :
  (forall n g, rangeKeys n g ≡ₚ rangeKeys' n g) ->
  Errors (ValidateYAMLFile rangeKeys file yamlFilePath)
    ≡ₚ Errors (ValidateYAMLFile rangeKeys' file yamlFilePath)
  /\ IsValid (ValidateYAMLFile rangeKeys file yamlFilePath)
     = IsValid (ValidateYAMLFile rangeKeys' file yamlFilePath)
  /\ Items (ValidateYAMLFile rangeKeys file yamlFilePath)
     = Items (ValidateYAMLFile rangeKeys' file yamlFilePath).
Proof.
  intros H. destruct file as [|err|data]; try (repeat split; reflexivity).
  rewrite !ValidateYAMLFile_Loaded. cbn [Errors IsValid Items].
  pose proof (all_findings_Permutation _ _ data 0 H) as Hperm.
  assert (Hall : (all_findings rangeKeys data 0
                  ++ (if (length data =? 0)%nat
                      then ["YAMLファイルにクイズデータが含まれていません"] else []))%list
                 ≡ₚ (all_findings rangeKeys' data 0
                     ++ (if (length data =? 0)%nat
                         then ["YAMLファイルにクイズデータが含まれていません"] else []))%list)
    by (apply Permutation_app; [exact Hperm|reflexivity]).
  split; [exact Hall|]. split; [|reflexivity].
  apply bool_decide_ext. split; intros E; rewrite E in Hall.
  - symmetry in Hall. apply Permutation_nil_r in Hall. exact Hall.
  - apply Permutation_nil_r in Hall. exact Hall.
Qed.

Lemma ValidateYAMLFile_order_independent_witness :
  Errors (ValidateYAMLFile (fun _ g => elements (dom g))
            (Loaded [ {| Question := ""; Answer := "a"; Spell := "";
                         Comments := [];
                         Criteria := Some (<["x" := []]> {["y" := []]}) |} ])
            "quiz.yaml")
    ≡ₚ Errors (ValidateYAMLFile (fun _ g => reverse (elements (dom g)))
                 (Loaded [ {| Question := ""; Answer := "a"; Spell := "";
                              Comments := [];
                              Criteria := Some (<["x" := []]> {["y" := []]}) |} ])
                 "quiz.yaml").
Proof.
  apply ValidateYAMLFile_order_independent.
  intros n g. symmetry. apply reverse_Permutation.
Defined.

Lemma Forall_blank_lines (P : string -> Prop) (line : Z -> string)
    (xs : list string) (j : Z) :
  (forall n, P (line n)) -> Forall P (blank_lines line xs j).
Proof.
  intros H. revert j. induction xs as [|x xs IH]; intros j; [constructor|].
  cbn [blank_lines]. apply Forall_app. split; [|apply IH].
  destruct (String.eqb (TrimSpace x) ""); repeat constructor. apply H.
Qed.

(** X13. Every issue found on a record starts with the number of the
    record, in the form [問題 n: ]. *)
Theorem validateQuizItem_messages_numbered
    (keys : list string) (item : QuizItem) (index : Z) :
  Forall (fun issue => HasPrefix issue ("問題 " ++ itoa index ++ ": ") = true)
    (validateQuizItem keys item index).
Proof.
  rewrite validateQuizItem_findings. unfold item_findings. cbv zeta.
  set (prefix := "問題 " ++ itoa index ++ ": ").
  assert (Hq : Forall (fun issue => HasPrefix issue prefix = true)
                 (if String.eqb (TrimSpace (Question item)) ""
                  then [prefix ++ "問題文 (question) が空です"] else []))
    by (destruct (String.eqb (TrimSpace (Question item)) "");
        repeat constructor; apply HasPrefix_app).
  assert (Ha : Forall (fun issue => HasPrefix issue prefix = true)
                 (if String.eqb (TrimSpace (Answer item)) ""
                  then [prefix ++ "答え (answer) が空です"] else []))
    by (destruct (String.eqb (TrimSpace (Answer item)) "");
        repeat constructor; apply HasPrefix_app).
  destruct (Criteria item);
    repeat (apply Forall_app; split);
    try assumption;
    try (apply Forall_blank_lines; intros n; apply HasPrefix_app).
  apply List.Forall_map, Forall_forall. intros key _. apply HasPrefix_app.
Qed.

(** X14. A question or an answer that consists of white space only, Unicode
    white space such as the ideographic space included, is reported as
    empty. *)
Theorem validateQuizItem_whitespace_fields
    (keys : list string) (item : QuizItem) (index : Z) :
  (whitespace_only (Question item) ->
   In (("問題 " ++ itoa index ++ ": ") ++ "問題文 (question) が空です")
     (validateQuizItem keys item index))
  /\ (whitespace_only (Answer item) ->
      In (("問題 " ++ itoa index ++ ": ") ++ "答え (answer) が空です")
        (validateQuizItem keys item index)).
Proof.
  rewrite validateQuizItem_findings. unfold item_findings. cbv zeta.
  split; intros H%TrimSpace_whitespace; rewrite H; cbn [String.eqb];
    destruct (Criteria item).
  - apply in_or_app. left. left. reflexivity.
  - apply in_or_app. left. left. reflexivity.
  - apply in_or_app. right. apply in_or_app. left. left. reflexivity.
  - apply in_or_app. right. apply in_or_app. left. left. reflexivity.
Qed.

Lemma validateQuizItem_whitespace_fields_witness :
  In (("問題 " ++ itoa 3 ++ ": ") ++ "問題文 (question) が空です")
    (validateQuizItem []
       {| Question := string_of_runes [0x3000; 0x20]; Answer := "a"; Spell := "";
          Comments := []; Criteria := None |} 3).
Proof.
  apply (proj1 (validateQuizItem_whitespace_fields [] _ 3)).
  exists [0x3000; 0x20]. split; [repeat constructor|reflexivity].
Defined.

Lemma blank_lines_In (line : Z -> string) (xs : list string) (j0 : Z)
    (j : nat) (x : string) :
  xs !! j = Some x -> TrimSpace x = "" ->
  In (line (j0 + Z.of_nat j)) (blank_lines line xs j0).
Proof.
  revert j0 j. induction xs as [|y xs IH]; intros j0 j Hj Hx; [discriminate Hj|].
  cbn [blank_lines]. apply in_or_app. destruct j as [|j].
  - injection Hj as ->. left. rewrite Hx. cbn [String.eqb].
    replace (j0 + Z.of_nat 0) with j0 by lia. left. reflexivity.
  - right. replace (j0 + Z.of_nat (S j)) with ((j0 + 1) + Z.of_nat j) by lia.
    apply IH; assumption.
Qed.

(** X15. Every blank entry is reported with its place: a blank comment by
    its zero-based position in the comment list, a blank entry of a
    recognised category by the name of the category and its zero-based
    position in that list. *)
Theorem validateQuizItem_blank_entry_indexed
    (keys : list string) (item : QuizItem) (index : Z) :
  (forall (j : nat) (x : string),
     Comments item !! j = Some x -> TrimSpace x = "" ->
     In (("問題 " ++ itoa index ++ ": ")
           ++ "comments[" ++ itoa (Z.of_nat j) ++ "] が空です")
       (validateQuizItem keys item index))
  /\ (forall (g : gmap string (list string)) (key : string)
             (xs : list string) (j : nat) (x : string),
        Criteria item = Some g -> recognized key -> g !! key = Some xs ->
        xs !! j = Some x -> TrimSpace x = "" ->
        In (("問題 " ++ itoa index ++ ": ")
              ++ "criteria." ++ key ++ "[" ++ itoa (Z.of_nat j) ++ "] が空です")
          (validateQuizItem keys item index)).
Proof.
  rewrite validateQuizItem_findings. unfold item_findings. cbv zeta. split.
  - intros j x Hj Hx.
    pose proof (blank_lines_In
                  (fun j => ("問題 " ++ itoa index ++ ": ")
                              ++ "comments[" ++ itoa j ++ "] が空です")
                  _ 0 j x Hj Hx) as H.
    destruct (Criteria item); repeat (apply in_or_app; right); exact H.
  - intros g key xs j x HC Hkey Hxs Hj Hx. rewrite HC. cbn [category].
    apply in_or_app. right. apply in_or_app. right.
    destruct Hkey as [ -> | [ -> | -> ] ]; rewrite Hxs; cbn [default].
    + apply in_or_app. left.
      exact (blank_lines_In
               (fun j => ("問題 " ++ itoa index ++ ": ")
                           ++ "criteria.ok[" ++ itoa j ++ "] が空です")
               _ 0 j x Hj Hx).
    + apply in_or_app. right. apply in_or_app. left.
      exact (blank_lines_In
               (fun j => ("問題 " ++ itoa index ++ ": ")
                           ++ "criteria.ng[" ++ itoa j ++ "] が空です")
               _ 0 j x Hj Hx).
    + apply in_or_app. right. apply in_or_app. right. apply in_or_app. left.
      exact (blank_lines_In
               (fun j => ("問題 " ++ itoa index ++ ": ")
                           ++ "criteria.repeat[" ++ itoa j ++ "] が空です")
               _ 0 j x Hj Hx).
Qed.

Lemma validateQuizItem_blank_entry_indexed_witness :
  In (("問題 " ++ itoa 2 ++ ": ") ++ "comments[" ++ itoa (Z.of_nat 1) ++ "] が空です")
    (validateQuizItem []
       {| Question := "q"; Answer := "a"; Spell := "";
          Comments := ["c"; "  "]; Criteria := None |} 2).
Proof.
  apply (proj1 (validateQuizItem_blank_entry_indexed [] _ 2) 1%nat "  ");
    reflexivity.
Defined.

(** ** The output format *)

Lemma byte_at_app_r (a b : string) (i : nat) :
  byte_at (a ++ b) (String.length a + i) = byte_at b i.
Proof.
  unfold byte_at. induction a as [|c a IH]; [reflexivity|].
  rewrite string_app_cons. exact IH.
Qed.

Lemma byte_at_cons_S (c : ascii) (s : string) (i : nat) :
  byte_at (String c s) (S i) = byte_at s i.
Proof. reflexivity. Qed.

Lemma has_byte_at (b : Z) (s : string) (i : nat) :
  has_byte b s = false -> (i < String.length s)%nat -> byte_at s i <> b.
Proof.
  revert i. induction s as [|c s IH]; intros i H Hi; cbn in Hi; [lia|].
  cbn [has_byte] in H. apply orb_false_iff in H as [Hc Hs].
  destruct i as [|i].
  - apply Z.eqb_neq in Hc. exact Hc.
  - rewrite byte_at_cons_S. apply IH; [exact Hs|lia].
Qed.

Lemma has_separator_at (os : GOOS) (s : string) (i : nat) :
  has_separator os s = false -> (i < String.length s)%nat ->
  IsPathSeparator os (byte_at s i) = false.
Proof.
  revert i. induction s as [|c s IH]; intros i H Hi; cbn in Hi; [lia|].
  cbn [has_separator] in H. apply orb_false_iff in H as [Hc Hs].
  destruct i as [|i]; [exact Hc|].
  rewrite byte_at_cons_S. apply IH; [exact Hs|lia].
Qed.

Lemma dot_not_separator (os : GOOS) : IsPathSeparator os 0x2E = false.
Proof. destruct os; reflexivity. Qed.

(** What follows the last dot of the last path element, with the dot, is
    the extension. *)
Lemma Ext_dot (os : GOOS) (stem e : string) :
  has_byte 0x2E e = false -> has_separator os e = false ->
  Ext os (stem ++ "." ++ e) = "." ++ e.
Proof.
  intros Hdot Hsep. unfold Ext. rewrite !string_length_app.
  change (String.length ".") with 1%nat.
  assert (H : forall k, (k <= String.length e)%nat ->
            Ext_loop os (stem ++ "." ++ e) (String.length stem + (1 + k))
            = "." ++ e).
  { induction k as [|k IH]; intros Hk.
    - replace (String.length stem + (1 + 0))%nat with (S (String.length stem)) by lia.
      cbn [Ext_loop].
      replace (byte_at (stem ++ "." ++ e) (String.length stem)) with 0x2E
        by (rewrite <- (Nat.add_0_r (String.length stem)) at 1;
            rewrite byte_at_app_r; reflexivity).
      rewrite dot_not_separator. cbn. apply slice_from_app.
    - replace (String.length stem + (1 + S k))%nat
        with (S (String.length stem + (1 + k))) by lia.
      cbn [Ext_loop]. rewrite byte_at_app_r.
      replace (1 + k)%nat with (S k) by lia.
      change (byte_at ("." ++ e) (S k)) with (byte_at e k).
      rewrite (has_separator_at os e k Hsep) by lia.
      destruct (byte_at e k =? 0x2E) eqn:E.
      + apply Z.eqb_eq in E. exfalso. revert E. apply has_byte_at; [exact Hdot|lia].
      + replace (S k) with (1 + k)%nat by lia. apply IH. lia. }
  apply H. lia.
Qed.

(** A last path element without a dot has no extension, whatever the
    directories before it are called. *)
Lemma Ext_no_dot (os : GOOS) (dir name : string) :
  has_byte 0x2E name = false -> has_separator os name = false ->
  Ext os (dir ++ "/" ++ name) = "" /\ Ext os name = "".
Proof.
  intros Hdot Hsep. unfold Ext. rewrite !string_length_app.
  change (String.length "/") with 1%nat.
  assert (Hloop : forall k, (k <= String.length name)%nat ->
            Ext_loop os (dir ++ "/" ++ name) (String.length dir + (1 + k)) = ""
            /\ Ext_loop os name k = "").
  { induction k as [|k IH]; intros Hk.
    - split; [|reflexivity].
      replace (String.length dir + (1 + 0))%nat with (S (String.length dir)) by lia.
      cbn [Ext_loop].
      replace (byte_at (dir ++ "/" ++ name) (String.length dir)) with 0x2F
        by (rewrite <- (Nat.add_0_r (String.length dir)) at 1;
            rewrite byte_at_app_r; reflexivity).
      destruct os; reflexivity.
    - replace (String.length dir + (1 + S k))%nat
        with (S (String.length dir + (1 + k))) by lia.
      cbn [Ext_loop]. rewrite byte_at_app_r.
      replace (1 + k)%nat with (S k) by lia.
      change (byte_at ("/" ++ name) (S k)) with (byte_at name k).
      rewrite (has_separator_at os name k Hsep) by lia.
      destruct (byte_at name k =? 0x2E) eqn:E.
      + apply Z.eqb_eq in E. exfalso. revert E. apply has_byte_at; [exact Hdot|lia].
      + replace (S k) with (1 + k)%nat by lia. apply IH. lia. }
  apply Hloop. lia.
Qed.

Lemma lower_bytes_csv (e : string) :
  lower_bytes e = "csv" ->
  In e ["csv"; "csV"; "cSv"; "cSV"; "Csv"; "CsV"; "CSv"; "CSV"].
Proof.
  assert (Hc : forall c t : ascii,
             In t ["c"; "s"; "v"]%char ->
             (if is_upper c then byte_of (byte_val c + 0x20) else c) = t ->
             c = t \/ byte_val c + 0x20 = byte_val t).
  { intros c t Ht H. destruct (is_upper c) eqn:U; [right|left; exact H].
    rewrite <- H. clear H Ht.
    destruct c as [[] [] [] [] [] [] [] []]; vm_compute in U;
      try discriminate U; vm_compute; reflexivity. }
  destruct e as [|c0 [|c1 [|c2 [|c3 e]]]]; cbn [lower_bytes]; try discriminate.
  intros H. injection H as H0 H1 H2.
  apply Hc in H0; [|cbn; auto]. apply Hc in H1; [|cbn; auto].
  apply Hc in H2; [|cbn; auto].
  assert (Hinj : forall c : ascii, forall z, byte_val c + 0x20 = z ->
             c = byte_of (z - 0x20)).
  { intros c z <-. unfold byte_of, byte_val.
    destruct c as [[] [] [] [] [] [] [] []]; vm_compute; reflexivity. }
  destruct H0 as [ -> | H0 ], H1 as [ -> | H1 ], H2 as [ -> | H2 ];
    try apply Hinj in H0; try apply Hinj in H1; try apply Hinj in H2; subst;
    vm_compute; auto 10.
Qed.

Lemma Ext_loop_result (os : GOOS) (path : string) (n : nat) :
  Ext_loop os path n = ""
  \/ exists i, (i < n)%nat /\ byte_at path i = 0x2E
               /\ Ext_loop os path n = slice_from i path.
Proof.
  induction n as [|n IH]; [left; reflexivity|]. cbn [Ext_loop].
  destruct (IsPathSeparator os (byte_at path n)); [left; reflexivity|].
  destruct (byte_at path n =? 0x2E) eqn:E.
  - right. exists n. apply Z.eqb_eq in E. auto.
  - destruct IH as [->|(i & Hi & Hb & ->)]; [left; reflexivity|].
    right. exists i. auto.
Qed.

Lemma isASCII_slice_from (s : string) (i : nat) :
  isASCII s = true -> isASCII (slice_from i s) = true.
Proof.
  revert i. induction s as [|c s IH]; intros [|i] H; try exact H.
  cbn [slice_from]. cbn [isASCII] in H. apply andb_true_iff in H as [_ H].
  apply IH, H.
Qed.

Lemma byte_at_slice_from (s : string) (i : nat) :
  byte_at (slice_from i s) 0 = byte_at s i.
Proof.
  revert i. induction s as [|c s IH]; intros [|i]; try reflexivity.
  cbn [slice_from]. rewrite byte_at_cons_S. apply IH.
Qed.

Lemma lower_bytes_id (s : string) : hasUpper s = false -> lower_bytes s = s.
Proof.
  induction s as [|c s IH]; [reflexivity|]. cbn [hasUpper lower_bytes].
  intros [-> H]%orb_false_iff. rewrite IH by exact H. reflexivity.
Qed.

(** On a string of ASCII bytes [ToLower] is the bytewise mapping, whatever
    the case tables of Unicode say. *)
Lemma ToLower_ASCII (f : Z -> Z) (s : string) :
  isASCII s = true -> ToLower f s = lower_bytes s.
Proof.
  intros H. unfold ToLower. rewrite H.
  destruct (hasUpper s) eqn:U; [reflexivity|].
  symmetry. apply lower_bytes_id, U.
Qed.

Lemma isASCII_dot_csv (e : string) :
  lower_bytes e = "csv" -> isASCII ("." ++ e) = true.
Proof.
  intros H%lower_bytes_csv. cbn [In] in H.
  repeat (destruct H as [<-|H]; [reflexivity|]). contradiction.
Qed.

Lemma no_dot_csv (os : GOOS) (e : string) :
  lower_bytes e = "csv" -> has_byte 0x2E e = false /\ has_separator os e = false.
Proof.
  intros H%lower_bytes_csv. cbn [In] in H.
  repeat (destruct H as [<-|H]; [destruct os; split; reflexivity|]). contradiction.
Qed.

(** X16. Without a template file the format is CSV for every output path
    that ends in a dot and the letters c, s, v in upper or lower case.  The
    format is CSV only when no template file is given, and for an output
    path of ASCII bytes only when the path ends in this way. *)
Theorem DetectOutputFormat_csv (pf : Platform) :
  (forall stem e : string,
     lower_bytes e = "csv" ->
     DetectOutputFormat pf (stem ++ "." ++ e) "" = FormatCSV)
  /\ (forall outputFile templateFile : string,
        DetectOutputFormat pf outputFile templateFile = FormatCSV ->
        templateFile = ""
        /\ (isASCII outputFile = true ->
            exists stem e, outputFile = stem ++ "." ++ e /\ lower_bytes e = "csv")).
Proof.
  split.
  - intros stem e He. unfold DetectOutputFormat. cbn [String.eqb negb].
    destruct (no_dot_csv (goos pf) e He) as [Hdot Hsep].
    rewrite (Ext_dot _ _ _ Hdot Hsep), ToLower_ASCII by (apply isASCII_dot_csv, He).
    change (lower_bytes ("." ++ e)) with (String "." (lower_bytes e)).
    rewrite He. reflexivity.
  - intros outputFile templateFile. unfold DetectOutputFormat.
    destruct (String.eqb_spec templateFile "") as [->|Hne]; cbn [negb];
      [|discriminate].
    destruct (String.eqb_spec
                (ToLower (unicode_ToLower pf) (Ext (goos pf) outputFile)) ".csv")
      as [Hext|]; [|discriminate].
    intros _. split; [reflexivity|]. intros Hascii.
    unfold Ext in Hext.
    destruct (Ext_loop_result (goos pf) outputFile (String.length outputFile))
      as [E|(i & Hi & Hb & E)]; rewrite E in Hext.
    + discriminate Hext.
    + rewrite ToLower_ASCII in Hext by (apply isASCII_slice_from, Hascii).
      rewrite <- byte_at_slice_from in Hb.
      exists (slice_to i outputFile).
      destruct (slice_from i outputFile) as [|c e] eqn:Hs; [discriminate Hext|].
      cbn [lower_bytes] in Hext. injection Hext as Hc He.
      exists e. split; [|exact He].
      assert (c = "."%char) as ->.
      { clear -Hb. destruct c as [[] [] [] [] [] [] [] []];
          vm_compute in Hb; try discriminate Hb; reflexivity. }
      rewrite <- (slice_to_from i outputFile) at 1. rewrite Hs. reflexivity.
Qed.

Lemma DetectOutputFormat_csv_witness :
  DetectOutputFormat {| goos := unix_like; unicode_ToLower := fun r => r |}
    ("out/quiz" ++ "." ++ "CsV") "" = FormatCSV.
Proof. apply DetectOutputFormat_csv. reflexivity. Defined.

(** X17. A dot in a directory name is no extension: when the last element
    of the output path holds no dot, the format is the template format, also
    when a directory before it is called [.csv]. *)
Theorem DetectOutputFormat_no_extension
    (pf : Platform) (dir name templateFile : string) :
  has_byte 0x2E name = false -> has_separator (goos pf) name = false ->
  DetectOutputFormat pf (dir ++ "/" ++ name) templateFile = FormatTemplate
  /\ DetectOutputFormat pf name templateFile = FormatTemplate.
Proof.
  intros Hdot Hsep. unfold DetectOutputFormat.
  destruct (Ext_no_dot (goos pf) dir name Hdot Hsep) as [-> ->].
  destruct (negb (String.eqb templateFile "")); split; reflexivity.
Qed.

Lemma DetectOutputFormat_no_extension_witness :
  DetectOutputFormat {| goos := windows; unicode_ToLower := fun r => r |}
    ("out.csv" ++ "/" ++ "quiz") "" = FormatTemplate.
Proof.
  apply (DetectOutputFormat_no_extension
           {| goos := windows; unicode_ToLower := fun r => r |} "out.csv" "quiz" "");
    reflexivity.
Defined.

(** ** Converting *)

(** The rows that [write_rows] gets through: the records of the first [k]
    items, where [k] is the number of all items exactly when no error is
    returned. *)
Lemma write_rows_written (env : Env) (path : string) (data : list QuizItem)
    (n : nat) (events : list Event) :
  exists k, (k <= length data)%nat
    /\ fst (write_rows env path data n events)
       = (events ++ map (WroteRecord path) (map csvRow (take k data)))%list
    /\ (snd (write_rows env path data n events) = None <-> k = length data).
Proof.
  revert n events. induction data as [|item rest IH]; intros n events.
  - exists 0%nat. cbn. rewrite app_nil_r. repeat split; lia.
  - cbn [write_rows]. destruct (csv_Write env n (csvRow item)) as [err|].
    + exists 0%nat. cbn. rewrite app_nil_r.
      split; [lia|]. split; [reflexivity|]. split; [discriminate|lia].
    + destruct (IH (S n) (go_append events (WroteRecord path (csvRow item))))
        as (k & Hk & Hev & Herr).
      exists (S k). cbn [length take map]. split; [lia|]. split.
      * rewrite Hev. unfold go_append. rewrite <- app_assoc. reflexivity.
      * rewrite Herr. lia.
Qed.

(** X18. [Convert] has three outcomes and no other.  With a template file
    it loads the records and runs the template, whatever the output is
    called, and hands nothing to the CSV writer.  Without one it writes CSV
    when the output has the CSV extension, and otherwise fails with "template
    file is required for non-CSV output" before it has touched any file. *)
Theorem Convert_dispatch (env : Env) (pf : Platform)
    (yamlFilePath outputFilePath templateFilePath : string) :
  (templateFilePath <> "" ->
   Convert env pf yamlFilePath outputFilePath templateFilePath
   = match LoadYAMLData env yamlFilePath with
     | fail err => ([], Some err)
     | ok data => ConvertToTemplate env data templateFilePath outputFilePath
     end
   /\ forall record,
        ~ In (WroteRecord outputFilePath record)
            (fst (Convert env pf yamlFilePath outputFilePath templateFilePath)))
  /\ (templateFilePath = "" ->
      DetectOutputFormat pf outputFilePath "" = FormatCSV ->
      Convert env pf yamlFilePath outputFilePath templateFilePath
      = ConvertYAMLToCSV env yamlFilePath outputFilePath)
  /\ (templateFilePath = "" ->
      DetectOutputFormat pf outputFilePath "" <> FormatCSV ->
      Convert env pf yamlFilePath outputFilePath templateFilePath
      = ([], Some "template file is required for non-CSV output")).
Proof.
  unfold Convert, DetectOutputFormat. split; [|split].
  - intros Hne%String.eqb_neq. rewrite Hne. cbn [negb].
    change (String.eqb FormatTemplate FormatCSV) with false.
    change (String.eqb FormatTemplate FormatTemplate) with true. cbv iota.
    split; [reflexivity|]. intros record.
    destruct (LoadYAMLData env yamlFilePath) as [data|err]; [|intros []].
    unfold ConvertToTemplate.
    destruct (os_ReadFile env templateFilePath) as [content|?]; [|intros []].
    destruct (template_Parse env content); [intros []|].
    destruct (os_Create env outputFilePath); [intros []|].
    destruct (template_Execute env content data) as [text [?|]];
      intros [H|[H|[]]]; discriminate H.
  - intros -> H. unfold DetectOutputFormat in H. cbn [String.eqb negb] in *.
    rewrite H. reflexivity.
  - intros -> H. unfold DetectOutputFormat in H. cbn [String.eqb negb] in *.
    destruct (String.eqb (ToLower _ _) ".csv"); [contradiction H; reflexivity|].
    reflexivity.
Qed.

Lemma Convert_dispatch_witness :
  Convert
    {| os_Stat_notexist := fun _ => false;
       os_Open := fun _ => None;
       io_ReadAll := fun _ => ok "";
       yaml_Unmarshal := fun _ => ok [];
       os_ReadFile := fun _ => ok "";
       template_Parse := fun _ => None;
       template_Execute := fun _ _ => ("", None);
       os_Create := fun _ => None;
       csv_Write := fun _ _ => None |}
    {| goos := unix_like; unicode_ToLower := fun r => r |}
    "quiz.yaml" "quiz.txt" ""
  = ([], Some "template file is required for non-CSV output").
Proof.
  apply (proj2 (proj2 (Convert_dispatch _ _ "quiz.yaml" "quiz.txt" "")));
    [reflexivity|]. vm_compute. discriminate.
Defined.

Lemma Convert_event_paths (env : Env) (pf : Platform)
    (yamlFilePath outputFilePath templateFilePath : string) :
  Forall (fun e => event_path e = Some outputFilePath)
    (fst (Convert env pf yamlFilePath outputFilePath templateFilePath))
  /\ (fst (Convert env pf yamlFilePath outputFilePath templateFilePath) = []
      \/ (exists data rest,
            LoadYAMLData env yamlFilePath = ok data
            /\ os_Create env outputFilePath = None
            /\ fst (Convert env pf yamlFilePath outputFilePath templateFilePath)
               = Created outputFilePath :: rest)).
Proof.
  unfold Convert.
  destruct (String.eqb (DetectOutputFormat pf outputFilePath templateFilePath) FormatCSV).
  - unfold ConvertYAMLToCSV.
    destruct (LoadYAMLData env yamlFilePath) as [data|err];
      [|split; [constructor|left; reflexivity]].
    destruct (os_Create env outputFilePath) eqn:HC;
      [split; [constructor|left; reflexivity]|].
    destruct (csv_Write env 0 _).
    + split; [repeat constructor|right]. exists data, []. auto.
    + destruct (write_rows_written env outputFilePath data 1
                  (go_append [Created outputFilePath]
                     (WroteRecord outputFilePath
                        ["question"; "answer"; "spell"; "criteria"])))
        as (k & _ & -> & _).
      split.
      * apply Forall_app. split; [repeat constructor|].
        apply List.Forall_map, Forall_forall. reflexivity.
      * right. exists data. eexists. repeat split.
  - destruct (String.eqb _ FormatTemplate);
      [|split; [constructor|left; reflexivity]].
    destruct (String.eqb templateFilePath "");
      [split; [constructor|left; reflexivity]|].
    destruct (LoadYAMLData env yamlFilePath) as [data|err];
      [|split; [constructor|left; reflexivity]].
    unfold ConvertToTemplate.
    destruct (os_ReadFile env templateFilePath) as [content|?];
      [|split; [constructor|left; reflexivity]].
    destruct (template_Parse env content);
      [split; [constructor|left; reflexivity]|].
    destruct (os_Create env outputFilePath) eqn:HC;
      [split; [constructor|left; reflexivity]|].
    destruct (template_Execute env content data) as [text [?|]];
      (split; [repeat constructor|right; exists data; eexists; auto]).
Qed.

(** X19. Whatever [Convert] creates or writes is the output path and nothing
    else.  When it does anything at all, the records have been loaded, the
    output could be created, and creating it was the first thing done: a
    YAML file that cannot be read or decoded leaves the output untouched. *)
Theorem Convert_events (env : Env) (pf : Platform)
    (yamlFilePath outputFilePath templateFilePath : string) :
  Forall (fun e => event_path e = Some outputFilePath)
    (fst (Convert env pf yamlFilePath outputFilePath templateFilePath))
  /\ (fst (Convert env pf yamlFilePath outputFilePath templateFilePath) = []
      \/ (exists data rest,
            LoadYAMLData env yamlFilePath = ok data
            /\ os_Create env outputFilePath = None
            /\ fst (Convert env pf yamlFilePath outputFilePath templateFilePath)
               = Created outputFilePath :: rest)).
Proof. apply Convert_event_paths. Qed.



(** ** The command line tool *)

Lemma Convert_without_template (env : Env) (pf : Platform)
    (yamlFilePath outputFilePath : string) :
  DetectOutputFormat pf outputFilePath "" <> FormatCSV ->
  Convert env pf yamlFilePath outputFilePath ""
  = ([], Some "template file is required for non-CSV output").
Proof.
  intros H. unfold Convert.
  destruct (String.eqb_spec (DetectOutputFormat pf outputFilePath "") FormatCSV)
    as [E|_]; [contradiction|].
  unfold DetectOutputFormat in *. cbn [String.eqb negb] in *.
  destruct (String.eqb (ToLower _ _) ".csv"); [contradiction H; reflexivity|].
  reflexivity.
Qed.

Lemma report_event_paths (r : list Event * option string) (success output : string) :
  Forall (fun e => event_path e = Some output) (fst r) ->
  Forall (fun e => event_path e = None \/ event_path e = Some output)
    (report r success).
Proof.
  intros H. unfold report.
  destruct (snd r); apply Forall_app; split;
    try (eapply Forall_impl; [exact H|intros e He; right; exact He]);
    repeat constructor.
Qed.

(** X21. A run of the tool creates and writes no file but the one named by
    [-output]; with [-help], without [-input], with [-validate] or without
    [-output] it creates and writes no file at all. *)
Theorem main_files (env : Env) (pf : Platform)
    (rangeKeys : Z -> gmap string (list string) -> list string) (f : Flags) :
  Forall (fun e => event_path e = None \/ event_path e = Some (flag_output f))
    (main env pf rangeKeys f)
  /\ (flag_help f = true \/ flag_input f = "" \/ flag_validate f = true
      \/ flag_output f = "" ->
      Forall (fun e => event_path e = None) (main env pf rangeKeys f)).
Proof.
  assert (Hval : forall (start : Event) (line : string) (errs : list string),
             event_path start = None ->
             Forall (fun e => event_path e = None)
               (start :: Stdout line
                :: map (fun err => Stderr ("  • " ++ err ++ nl)) errs ++ [Exit 1])%list).
  { intros start line errs Hs. constructor; [exact Hs|]. constructor; [reflexivity|].
    apply Forall_app. split; [|repeat constructor].
    apply List.Forall_map, Forall_forall. reflexivity. }
  unfold main. split.
  - destruct (flag_help f); [repeat constructor|].
    destruct (String.eqb (flag_input f) ""); [repeat constructor|].
    destruct (flag_validate f).
    { destruct (IsValid _); [repeat constructor|].
      eapply Forall_impl; [apply Hval; reflexivity|]. intros e He. left. exact He. }
    destruct (String.eqb (flag_output f) ""); [repeat constructor|].
    destruct (negb (String.eqb (flag_template f) ""));
      [apply report_event_paths, Convert_event_paths|].
    destruct (String.eqb (flag_format f) "csv");
      [apply report_event_paths, Convert_event_paths|].
    destruct (String.eqb (flag_format f) "html");
      [apply report_event_paths, Convert_event_paths|].
    destruct (String.eqb (flag_format f) "markdown" || String.eqb (flag_format f) "md");
      [apply report_event_paths, Convert_event_paths|].
    repeat constructor.
  - intros H.
    destruct (flag_help f); [repeat constructor|].
    destruct (String.eqb_spec (flag_input f) "") as [_|Hin]; [repeat constructor|].
    destruct (flag_validate f).
    { destruct (IsValid _); [repeat constructor|]. apply Hval. reflexivity. }
    destruct (String.eqb_spec (flag_output f) "") as [_|Hout]; [repeat constructor|].
    exfalso. destruct H as [H|[H|[H|H]]]; (discriminate H || contradiction).
Qed.

Lemma main_files_witness :
  Forall (fun e => event_path e = None)
    (main
       {| os_Stat_notexist := fun _ => true;
          os_Open := fun _ => None;
          io_ReadAll := fun _ => ok "";
          yaml_Unmarshal := fun _ => ok [];
          os_ReadFile := fun _ => ok "";
          template_Parse := fun _ => None;
          template_Execute := fun _ _ => ("", None);
          os_Create := fun _ => None;
          csv_Write := fun _ _ => None |}
       {| goos := unix_like; unicode_ToLower := fun r => r |}
       (fun _ g => elements (dom g))
       {| flag_input := "quiz.yaml"; flag_output := "quiz.csv"; flag_format := "csv";
          flag_template := ""; flag_validate := true; flag_help := false |}).
Proof.
  apply main_files. right. right. left. reflexivity.
Defined.

(** X22. The default format does not choose the CSV writer, the extension of
    the output does: with [-format csv], no template and an output path
    that has not the CSV extension, the run prints the error "template file
    is required for non-CSV output", touches no file, and exits with
    status 1. *)
Theorem main_csv_needs_extension (env : Env) (pf : Platform)
    (rangeKeys : Z -> gmap string (list string) -> list string) (f : Flags) :
  flag_help f = false -> flag_input f <> "" -> flag_validate f = false ->
  flag_output f <> "" -> flag_template f = "" -> flag_format f = "csv" ->
  DetectOutputFormat pf (flag_output f) "" <> FormatCSV ->
  main env pf rangeKeys f
  = [ Stderr ("❌ エラー: " ++ "template file is required for non-CSV output" ++ nl);
      Exit 1 ].
Proof.
  intros Hh Hin Hv Hout Ht Hf Hext. unfold main.
  apply String.eqb_neq in Hin, Hout.
  rewrite Hh, Hin, Hv, Hout, Ht, Hf. cbn [String.eqb negb].
  rewrite Convert_without_template by exact Hext. reflexivity.
Qed.

Lemma main_csv_needs_extension_witness :
  main
    {| os_Stat_notexist := fun _ => false;
       os_Open := fun _ => None;
       io_ReadAll := fun _ => ok "";
       yaml_Unmarshal := fun _ => ok [];
       os_ReadFile := fun _ => ok "";
       template_Parse := fun _ => None;
       template_Execute := fun _ _ => ("", None);
       os_Create := fun _ => None;
       csv_Write := fun _ _ => None |}
    {| goos := unix_like; unicode_ToLower := fun r => r |}
    (fun _ g => elements (dom g))
    {| flag_input := "quiz.yaml"; flag_output := "quiz.txt"; flag_format := "csv";
       flag_template := ""; flag_validate := false; flag_help := false |}
  = [ Stderr ("❌ エラー: " ++ "template file is required for non-CSV output" ++ nl);
      Exit 1 ].
Proof.
  apply main_csv_needs_extension; try reflexivity; discriminate.
Defined.

(** X23. In validation mode the run ends with exit status 1 exactly when the
    report is not valid, and then every issue of the report is printed on
    the error stream as a bullet line; the flags [-output], [-format] and
    [-template] have no influence. *)
Theorem main_validate (env : Env) (pf : Platform)
    (rangeKeys : Z -> gmap string (list string) -> list string) (f : Flags) :
  flag_help f = false -> flag_input f <> "" -> flag_validate f = true ->
  (In (Exit 1) (main env pf rangeKeys f)
   <-> IsValid (ValidateYAMLFile rangeKeys (stat_and_load env (flag_input f))
                  (flag_input f)) = false)
  /\ (forall issue : string,
        IsValid (ValidateYAMLFile rangeKeys (stat_and_load env (flag_input f))
                   (flag_input f)) = false ->
        In issue (Errors (ValidateYAMLFile rangeKeys (stat_and_load env (flag_input f))
                            (flag_input f))) ->
        In (Stderr ("  • " ++ issue ++ nl)) (main env pf rangeKeys f))
  /\ (forall output format template : string,
        main env pf rangeKeys f
        = main env pf rangeKeys
            {| flag_input := flag_input f; flag_output := output;
               flag_format := format; flag_template := template;
               flag_validate := true; flag_help := false |}).
Proof.
  intros Hh Hin%String.eqb_neq Hv. unfold main.
  cbn [flag_help flag_input flag_validate]. rewrite Hh, Hin, Hv.
  set (result := ValidateYAMLFile rangeKeys (stat_and_load env (flag_input f))
                   (flag_input f)).
  split; [|split; [|reflexivity]].
  - destruct (IsValid result).
    + split; [|discriminate]. intros [H|[H|[]]]; discriminate H.
    + split; [reflexivity|]. intros _. right. right.
      apply in_or_app. right. left. reflexivity.
  - intros issue Hvalid Hissue. rewrite Hvalid. right. right.
    apply in_or_app. left.
    apply (in_map (fun err => Stderr ("  • " ++ err ++ nl))), Hissue.
Qed.

Lemma main_validate_witness :
  In (Exit 1)
    (main
       {| os_Stat_notexist := fun _ => true;
          os_Open := fun _ => None;
          io_ReadAll := fun _ => ok "";
          yaml_Unmarshal := fun _ => ok [];
          os_ReadFile := fun _ => ok "";
          template_Parse := fun _ => None;
          template_Execute := fun _ _ => ("", None);
          os_Create := fun _ => None;
          csv_Write := fun _ _ => None |}
       {| goos := unix_like; unicode_ToLower := fun r => r |}
       (fun _ g => elements (dom g))
       {| flag_input := "quiz.yaml"; flag_output := ""; flag_format := "csv";
          flag_template := ""; flag_validate := true; flag_help := false |}).
Proof.
  apply main_validate; try reflexivity; discriminate.
Defined.
